(** * flux export source git: a shallow embedding of cmd/flux/export_source_git.go

    The command reads GitRepository objects (and, on request, the Secret a
    repository refers to) through a Kubernetes API client and prints them as
    YAML documents.  The embedding keeps the three functions of the file,
    [exportSourceGitCmdRun], [exportGit] and [exportGitCredentials], and makes
    their effects explicit: every API call, every printed line, every log line
    and the deferred cancellation of the context are appended to a trace, and
    the cluster behind the client is a state that each call may change. *)

From stdpp Require Import base strings gmap list numbers.

Local Open Scope string_scope.
Local Open Scope Z_scope.
Local Open Scope list_scope.

(** ** Go values *)

(** The zero value of a Go type: what a field of a struct literal holds when
    the literal does not mention it. *)
Class Zero (A : Type) := zero : A.
Global Hint Mode Zero ! : typeclass_instances.

Global Instance string_zero : Zero string := "".
Global Instance Z_zero : Zero Z := 0.
Global Instance bool_zero : Zero bool := false.
Global Instance option_zero {A} : Zero (option A) := None.
Global Instance list_zero {A} : Zero (list A) := [].

(** Go's [error] interface.  [errorString] is what [errors.New] and
    [fmt.Errorf] without [%w] build, [wrapError] is what [fmt.Errorf] builds
    for a format with [%w], and [StatusError] stands for the errors of the API
    machinery (not found, unauthorized, timeout, ...).  A nil error is [None]
    in [option error]. *)
Inductive error : Type :=
| errorString (s : string)
| wrapError (msg : string) (err : error)
| StatusError (reason : string) (message : string).

Global Instance error_eq_dec : EqDecision error.
Proof. solve_decision. Defined.

Definition Error (e : error) : string :=
  match e with
  | errorString s => s
  | wrapError msg _ => msg
  | StatusError _ message => message
  end.

Definition Unwrap (e : error) : option error :=
  match e with
  | wrapError _ err => Some err
  | _ => None
  end.

Module fmt.
(** [fmt.Errorf(format)] for a format without verbs. *)
Definition Errorf (format : string) : error := errorString format.

(** [fmt.Errorf(pre + "%s" + mid + "%w", a, err)]: the message holds [a] and
    the message of [err], and the result unwraps to [err]. *)
Definition Errorf_s_w (pre : string) (a : string) (mid : string) (err : error) : error :=
    wrapError (pre +:+ a +:+ mid +:+ Error err) err.

(** [fmt.Sprintf(pre + "%s" + post, a)]. *)
Definition Sprintf_s (pre : string) (a : string) (post : string) : string :=
    pre +:+ a +:+ post.
End fmt.

(** [time.Duration] and [metav1.Duration]: an int64 count of nanoseconds. *)
Definition Duration := Z.

(** [metav1.Time], kept as a count of seconds; the zero time is [0]. *)
Definition Time := Z.

(** [context.Context], as far as the command builds one. *)
Inductive Context : Type :=
| Background
| WithTimeout (parent : Context) (timeout : Duration).

Global Instance Context_eq_dec : EqDecision Context.
Proof. solve_decision. Defined.

(** ** Kubernetes objects

    The schemas belong to k8s.io/apimachinery, k8s.io/api and
    fluxcd/source-controller; one module per struct keeps the Go field names. *)

Module TypeMeta.
Record t := mk { Kind : string; APIVersion : string }.
Global Instance t_zero : Zero t := mk zero zero.
End TypeMeta.

Module OwnerReference.
Record t := mk {
    APIVersion : string;
    Kind : string;
    Name : string;
    UID : string;
    Controller : option bool;
    BlockOwnerDeletion : option bool
  }.
End OwnerReference.

Module ManagedFieldsEntry.
Record t := mk {
    Manager : string;
    Operation : string;
    APIVersion : string;
    Time_ : option Time;
    FieldsType : string
  }.
End ManagedFieldsEntry.

Module ObjectMeta.
Record t := mk {
    Name : string;
    GenerateName : string;
    Namespace : string;
    SelfLink : string;
    UID : string;
    ResourceVersion : string;
    Generation : Z;
    CreationTimestamp : Time;
    DeletionTimestamp : option Time;
    DeletionGracePeriodSeconds : option Z;
    Labels : option (gmap string string);
    Annotations : option (gmap string string);
    OwnerReferences : list OwnerReference.t;
    Finalizers : list string;
    ClusterName : string;
    ManagedFields : list ManagedFieldsEntry.t
  }.
Global Instance t_zero : Zero t :=
    mk zero zero zero zero zero zero zero zero zero zero zero zero zero zero zero zero.
End ObjectMeta.

Module LocalObjectReference.
Record t := mk { Name : string }.
End LocalObjectReference.

Module NamespacedName.
Record t := mk { Namespace : string; Name : string }.
Global Instance t_eq_dec : EqDecision t.
Proof. solve_decision. Defined.
End NamespacedName.

Module GitRepositoryRef.
Record t := mk { Branch : string; Tag : string; SemVer : string; Commit : string }.
End GitRepositoryRef.

Module GitRepositoryVerification.
Record t := mk { Mode : string; SecretRef : LocalObjectReference.t }.
End GitRepositoryVerification.

Module GitRepositorySpec.
Record t := mk {
    URL : string;
    SecretRef : option LocalObjectReference.t;
    Interval : Duration;
    Timeout : option Duration;
    Reference : option GitRepositoryRef.t;
    Verification : option GitRepositoryVerification.t;
    Ignore : option string;
    Suspend : bool;
    GitImplementation : string
  }.
Global Instance t_zero : Zero t :=
    mk zero zero zero zero zero zero zero zero zero.
End GitRepositorySpec.

Module Condition.
Record t := mk {
    Type_ : string;
    Status : string;
    LastTransitionTime : Time;
    Reason : string;
    Message : string
  }.
End Condition.

Module Artifact.
Record t := mk {
    Path : string;
    URL : string;
    Revision : string;
    Checksum : string;
    LastUpdateTime : Time
  }.
End Artifact.

Module GitRepositoryStatus.
Record t := mk {
    ObservedGeneration : Z;
    Conditions : list Condition.t;
    URL : string;
    Artifact : option Artifact.t;
    LastHandledReconcileAt : string
  }.
Global Instance t_zero : Zero t := mk zero zero zero zero zero.
End GitRepositoryStatus.

Module GitRepository.
Record t := mk {
    TypeMeta : TypeMeta.t;
    ObjectMeta : ObjectMeta.t;
    Spec : GitRepositorySpec.t;
    Status : GitRepositoryStatus.t
  }.
(** [TypeMeta] and [ObjectMeta] are embedded: [source.Name] is
    [source.ObjectMeta.Name]. *)
Definition Name (r : t) : string := ObjectMeta.Name (ObjectMeta r).
Definition Namespace (r : t) : string := ObjectMeta.Namespace (ObjectMeta r).
Definition Labels (r : t) := ObjectMeta.Labels (ObjectMeta r).
Definition Annotations (r : t) := ObjectMeta.Annotations (ObjectMeta r).
End GitRepository.

Module Secret.
Record t := mk {
    TypeMeta : TypeMeta.t;
    ObjectMeta : ObjectMeta.t;
    Immutable : option bool;
    Data : option (gmap string (list Byte.byte));
    StringData : option (gmap string string);
    Type_ : string
  }.
End Secret.

(** [schema.GroupVersion] and [schema.GroupVersionKind]. *)
Module GroupVersion.
Record t := mk { Group : string; Version : string }.

Definition String (gv : t) : string :=
    if decide (Group gv = "") then Version gv
    else Group gv +:+ "/" +:+ Version gv.
End GroupVersion.

Module GroupVersionKind.
Record t := mk { Group : string; Version : string; Kind : string }.

Definition GroupVersion (gvk : t) : GroupVersion.t :=
    GroupVersion.mk (Group gvk) (Version gvk).
End GroupVersionKind.

Definition WithKind (gv : GroupVersion.t) (kind : string) : GroupVersionKind.t :=
  GroupVersionKind.mk (GroupVersion.Group gv) (GroupVersion.Version gv) kind.

Module sourcev1.
Definition GroupVersion : GroupVersion.t :=
    GroupVersion.mk "source.toolkit.fluxcd.io" "v1beta1".
Definition GitRepositoryKind : string := "GitRepository".
End sourcev1.

(** ** Effects *)

(** A request to the API server, as the client sends it. *)
Inductive Request : Type :=
| ReqList (namespace : string)
| ReqGetGitRepository (key : NamespacedName.t)
| ReqGetSecret (key : NamespacedName.t).

(** What the command does that can be observed from outside, in order: an API
    call (with the context it was given and the error it came back with, [None]
    for nil), a line on standard output, a failure line of the logger, and the
    call of the cancel function of a context. *)
Inductive Event : Type :=
| Call (ctx : Context) (req : Request) (err : option error)
| Stdout (line : string)
| LogFailure (msg : string)
| Cancel (ctx : Context).

(** [client.Client] of controller-runtime, restricted to the methods and object
    types the command uses.  [World] is the cluster: a call reads it and may
    leave it changed, so two calls with one key need not agree. *)
Module Client.
Record t (World : Type) := mk {
    List : Context -> string -> World -> (error + list GitRepository.t) * World;
    Get_GitRepository :
      Context -> NamespacedName.t -> World -> (error + GitRepository.t) * World;
    Get_Secret : Context -> NamespacedName.t -> World -> (error + Secret.t) * World
  }.
Arguments List {World}.
Arguments Get_GitRepository {World}.
Arguments Get_Secret {World}.
End Client.

(** What the file takes from outside: [yaml.Marshal] of sigs.k8s.io/yaml at the
    two types it is called at, and two helpers of this repository that are
    declared in other files, [resourceToString] and [utils.KubeClient]. *)
Module Env.
Record t (World : Type) := mk {
    yaml_Marshal_GitRepository : GitRepository.t -> error + list Byte.byte;
    yaml_Marshal_Secret : Secret.t -> error + list Byte.byte;
    resourceToString : list Byte.byte -> string;
    utils_KubeClient : string -> string -> error + Client.t World
  }.
Arguments yaml_Marshal_GitRepository {World}.
Arguments yaml_Marshal_Secret {World}.
Arguments resourceToString {World}.
Arguments utils_KubeClient {World}.
End Env.

(** The package-level flag variables the command reads. *)
Module rootFlags.
Record t := mk {
    kubeconfig : string;
    kubecontext : string;
    namespace : string;
    timeout : Duration
  }.
End rootFlags.

Module exportFlags.
Record t := mk { all : bool }.
End exportFlags.

Module Globals.
Record t := mk {
    rootArgs : rootFlags.t;
    exportArgs : exportFlags.t;
    exportSourceWithCred : bool
  }.
End Globals.

Module State.
Record t (World : Type) := mk { world : World; trace : list Event }.
Arguments mk {World}.
Arguments world {World}.
Arguments trace {World}.
End State.

(** A Go function with an [error] result, run from a state: it ends with the
    error ([inl]) or with its value ([inr]), and with the state it reached
    either way (what was printed before an error stays printed). *)
Definition M (World A : Type) : Type :=
  State.t World -> (error + A) * State.t World.

Section Monad.
Context {World : Type}.

#[export] Instance M_ret : MRet (M World) := λ A (a : A) st, (inr a, st).

#[export] Instance M_bind : MBind (M World) := λ A B (f : A → M World B) (m : M World A) st,
  match m st with
  | (inl e, st') => (inl e, st')
  | (inr a, st') => f a st'
  end.

(** [return err] with a non-nil [err]. *)
Definition throw {A} (e : error) : M World A := λ st, (inl e, st).

(** [v, err := f(...); if err != nil { return err }] for a pure [f]. *)
Definition lift {A} (r : error + A) : M World A := λ st, (r, st).

(** [v, err := f(...)] alone: the error is kept as a value. *)
Definition attempt {A} (m : M World A) : M World (error + A) := λ st,
  let '(r, st') := m st in (inr r, st').

Definition emit (ev : Event) : M World unit := λ st,
  (inr tt, State.mk (State.world st) (State.trace st ++ [ev])).

(** [defer d] before [body]: [d] runs when [body] is left, on every path. *)
Definition defer {A} (d : M World unit) (body : M World A) : M World A := λ st,
  let '(r, st') := body st in (r, snd (d st')).

(** [for _, x := range l { body }], leaving the loop on the first error. *)
Fixpoint forRange {A} (l : list A) (body : A → M World unit) : M World unit :=
  match l with
  | [] => mret tt
  | x :: rest => body x ;; forRange rest body
  end.

Definition fmt_Println (line : string) : M World unit := emit (Stdout line).

Definition logger_Failuref (pre a post : string) : M World unit :=
  emit (LogFailure (fmt.Sprintf_s pre a post)).

Definition apiCall {A} (ctx : Context) (req : Request)
    (op : World → (error + A) * World) : M World A := λ st,
  let '(res, w') := op (State.world st) in
  (res, State.mk w' (State.trace st ++
          [Call ctx req (match res with inl e => Some e | inr _ => None end)])).

Definition kubeClient_List (c : Client.t World) (ctx : Context) (namespace : string)
  : M World (list GitRepository.t) :=
  apiCall ctx (ReqList namespace) (Client.List c ctx namespace).

Definition kubeClient_Get_GitRepository (c : Client.t World) (ctx : Context)
    (key : NamespacedName.t) : M World GitRepository.t :=
  apiCall ctx (ReqGetGitRepository key) (Client.Get_GitRepository c ctx key).

Definition kubeClient_Get_Secret (c : Client.t World) (ctx : Context)
    (key : NamespacedName.t) : M World Secret.t :=
  apiCall ctx (ReqGetSecret key) (Client.Get_Secret c ctx key).

End Monad.

(** ** The command *)

Section Command.
Context {World : Type}.
Variable env : Env.t World.

(** The [export] value that [exportGit] marshals. *)
Definition exportGit_export (source : GitRepository.t) : GitRepository.t :=
  let gvk := WithKind sourcev1.GroupVersion sourcev1.GitRepositoryKind in
  {| GitRepository.TypeMeta :=
       {| TypeMeta.Kind := GroupVersionKind.Kind gvk;
          TypeMeta.APIVersion :=
            GroupVersion.String (GroupVersionKind.GroupVersion gvk) |};
     GitRepository.ObjectMeta :=
       {| ObjectMeta.Name := GitRepository.Name source;
          ObjectMeta.Namespace := GitRepository.Namespace source;
          ObjectMeta.Labels := GitRepository.Labels source;
          ObjectMeta.Annotations := GitRepository.Annotations source;
          ObjectMeta.GenerateName := zero;
          ObjectMeta.SelfLink := zero;
          ObjectMeta.UID := zero;
          ObjectMeta.ResourceVersion := zero;
          ObjectMeta.Generation := zero;
          ObjectMeta.CreationTimestamp := zero;
          ObjectMeta.DeletionTimestamp := zero;
          ObjectMeta.DeletionGracePeriodSeconds := zero;
          ObjectMeta.OwnerReferences := zero;
          ObjectMeta.Finalizers := zero;
          ObjectMeta.ClusterName := zero;
          ObjectMeta.ManagedFields := zero |};
     GitRepository.Spec := GitRepository.Spec source;
     GitRepository.Status := zero |}.

Definition exportGit (source : GitRepository.t) : M World unit :=
  let export := exportGit_export source in
  data ← lift (Env.yaml_Marshal_GitRepository env export);
  fmt_Println "---" ;;
  fmt_Println (Env.resourceToString env data).

(** The [exported] value that [exportGitCredentials] marshals. *)
Definition exportGitCredentials_exported
    (namespacedName : NamespacedName.t) (cred : Secret.t) : Secret.t :=
  {| Secret.TypeMeta := {| TypeMeta.APIVersion := "v1"; TypeMeta.Kind := "Secret" |};
     Secret.ObjectMeta :=
       {| ObjectMeta.Name := NamespacedName.Name namespacedName;
          ObjectMeta.Namespace := NamespacedName.Namespace namespacedName;
          ObjectMeta.Labels := zero;
          ObjectMeta.Annotations := zero;
          ObjectMeta.GenerateName := zero;
          ObjectMeta.SelfLink := zero;
          ObjectMeta.UID := zero;
          ObjectMeta.ResourceVersion := zero;
          ObjectMeta.Generation := zero;
          ObjectMeta.CreationTimestamp := zero;
          ObjectMeta.DeletionTimestamp := zero;
          ObjectMeta.DeletionGracePeriodSeconds := zero;
          ObjectMeta.OwnerReferences := zero;
          ObjectMeta.Finalizers := zero;
          ObjectMeta.ClusterName := zero;
          ObjectMeta.ManagedFields := zero |};
     Secret.Immutable := zero;
     Secret.Data := Secret.Data cred;
     Secret.StringData := zero;
     Secret.Type_ := Secret.Type_ cred |}.

Definition exportGitCredentials (ctx : Context) (kubeClient : Client.t World)
    (source : GitRepository.t) : M World unit :=
  match GitRepositorySpec.SecretRef (GitRepository.Spec source) with
  | Some secretRef =>
      let namespacedName :=
        {| NamespacedName.Namespace := GitRepository.Namespace source;
           NamespacedName.Name := LocalObjectReference.Name secretRef |} in
      res ← attempt (kubeClient_Get_Secret kubeClient ctx namespacedName);
      match res with
      | inl err =>
          throw (fmt.Errorf_s_w "failed to retrieve secret "
                   (NamespacedName.Name namespacedName) ", error: " err)
      | inr cred =>
          let exported := exportGitCredentials_exported namespacedName cred in
          data ← lift (Env.yaml_Marshal_Secret env exported);
          fmt_Println "---" ;;
          fmt_Println (Env.resourceToString env data)
      end
  | None => mret tt
  end.

Variable g : Globals.t.

Local Abbreviation rootArgs := (Globals.rootArgs g).
Local Abbreviation exportArgs := (Globals.exportArgs g).
Local Abbreviation exportSourceWithCred := (Globals.exportSourceWithCred g).

(** The body of the loop over [list.Items]. *)
Definition exportSourceGitCmdRun_each (ctx : Context) (kubeClient : Client.t World)
    (repository : GitRepository.t) : M World unit :=
  exportGit repository ;;
  if exportSourceWithCred
  then exportGitCredentials ctx kubeClient repository
  else mret tt.

(** Reading [args[0]] of an empty slice panics; the deferred cancel still
    runs.  [args_0_in_range] shows that the command never gets here. *)
Definition index_out_of_range : error :=
  errorString "runtime error: index out of range [0] with length 0".

Definition exportSourceGitCmdRun (args : list string) : M World unit :=
  if negb (exportFlags.all exportArgs) && (length args <? 1)%nat
  then throw (fmt.Errorf "name is required")
  else
    let ctx := WithTimeout Background (rootFlags.timeout rootArgs) in
    defer (emit (Cancel ctx))
      (kubeClient ← lift (Env.utils_KubeClient env
                            (rootFlags.kubeconfig rootArgs)
                            (rootFlags.kubecontext rootArgs));
       if exportFlags.all exportArgs
       then
         list ← kubeClient_List kubeClient ctx (rootFlags.namespace rootArgs);
         if (length list =? 0)%nat
         then
           logger_Failuref "no source found in " (rootFlags.namespace rootArgs)
                           " namespace" ;;
           mret tt
         else forRange list (exportSourceGitCmdRun_each ctx kubeClient)
       else
         match args with
         | name :: _ =>
             let namespacedName :=
               {| NamespacedName.Namespace := rootFlags.namespace rootArgs;
                  NamespacedName.Name := name |} in
             repository ← kubeClient_Get_GitRepository kubeClient ctx namespacedName;
             exportGit repository ;;
             if exportSourceWithCred
             then exportGitCredentials ctx kubeClient repository
             else mret tt
         | [] => throw index_out_of_range
         end).

(** One invocation from a cluster [w]: the error the command returns ([None]
    for nil) and the state it leaves. *)
Definition run (args : list string) (w : World) : option error * State.t World :=
  let '(r, st) := exportSourceGitCmdRun args (State.mk w []) in
  (match r with inl e => Some e | inr _ => None end, st).

End Command.

(** ** Reading a trace *)

Definition isCall (ev : Event) : bool :=
  match ev with Call _ _ _ => true | _ => false end.

Definition isStdout (ev : Event) : bool :=
  match ev with Stdout _ => true | _ => false end.

(** The API calls of a trace, in order. *)
Definition calls (tr : list Event) : list Event := List.filter isCall tr.

(** The lines printed on standard output, in order. *)
Definition stdout (tr : list Event) : list string :=
  omap (λ ev, match ev with Stdout line => Some line | _ => None end) tr.

Definition isSecretGet (ev : Event) : bool :=
  match ev with Call _ (ReqGetSecret _) _ => true | _ => false end.

(** A List or a Get of a GitRepository. *)
Definition isRepositoryCall (ev : Event) : bool :=
  match ev with
  | Call _ (ReqList _) _ | Call _ (ReqGetGitRepository _) _ => true
  | _ => false
  end.

(** The error of a result, [None] for nil. *)
Definition errorOf {A} (r : error + A) : option error :=
  match r with inl e => Some e | inr _ => None end.

(** ** A small cluster to run the command on

    An in-memory client over a list of repositories and a list of secrets; a
    Get of a missing object is a NotFound error.  The marshaller prints kind,
    namespace and name, and refuses an object without a name. *)
Module Fake.
Record Cluster := mkCluster {
    repositories : list GitRepository.t;
    secrets : list Secret.t
  }.

Definition notFound (name : string) : error :=
  StatusError "NotFound" (name +:+ " not found").

Definition hasKey (key : NamespacedName.t) (m : ObjectMeta.t) : bool :=
  bool_decide (ObjectMeta.Namespace m = NamespacedName.Namespace key) &&
  bool_decide (ObjectMeta.Name m = NamespacedName.Name key).

Definition client : Client.t Cluster :=
  {| Client.List := λ _ ns w,
       (inr (List.filter
               (λ r, bool_decide (GitRepository.Namespace r = ns))
               (repositories w)), w);
     Client.Get_GitRepository := λ _ key w,
       (match List.find (λ r, hasKey key (GitRepository.ObjectMeta r)) (repositories w) with
        | Some r => inr r
        | None => inl (notFound (NamespacedName.Name key))
        end, w);
     Client.Get_Secret := λ _ key w,
       (match List.find (λ s, hasKey key (Secret.ObjectMeta s)) (secrets w) with
        | Some s => inr s
        | None => inl (notFound (NamespacedName.Name key))
        end, w) |}.

Definition marshal (tm : TypeMeta.t) (m : ObjectMeta.t) : error + list Byte.byte :=
  if decide (ObjectMeta.Name m = "")
  then inl (errorString "yaml: object without a name")
  else inr (String.list_byte_of_string
              (TypeMeta.Kind tm +:+ " " +:+ ObjectMeta.Namespace m +:+ "/" +:+
               ObjectMeta.Name m)).

Definition env : Env.t Cluster :=
  {| Env.yaml_Marshal_GitRepository := λ r,
       marshal (GitRepository.TypeMeta r) (GitRepository.ObjectMeta r);
     Env.yaml_Marshal_Secret := λ s,
       marshal (Secret.TypeMeta s) (Secret.ObjectMeta s);
     Env.resourceToString := String.string_of_list_byte;
     Env.utils_KubeClient := λ _ _, inr client |}.

Definition meta (namespace name : string) (labels : option (gmap string string))
  : ObjectMeta.t :=
  {| ObjectMeta.Name := name;
     ObjectMeta.Namespace := namespace;
     ObjectMeta.Labels := labels;
     ObjectMeta.Annotations := None;
     ObjectMeta.GenerateName := "";
     ObjectMeta.SelfLink := "";
     ObjectMeta.UID := "0b2a";
     ObjectMeta.ResourceVersion := "41";
     ObjectMeta.Generation := 1;
     ObjectMeta.CreationTimestamp := 1600000000;
     ObjectMeta.DeletionTimestamp := None;
     ObjectMeta.DeletionGracePeriodSeconds := None;
     ObjectMeta.OwnerReferences := [];
     ObjectMeta.Finalizers := [];
     ObjectMeta.ClusterName := "";
     ObjectMeta.ManagedFields := [] |}.

Definition repository (name : string) (secretRef : option string) : GitRepository.t :=
  {| GitRepository.TypeMeta := TypeMeta.mk "GitRepository" "source.toolkit.fluxcd.io/v1beta1";
     GitRepository.ObjectMeta := meta "flux-system" name None;
     GitRepository.Spec :=
       {| GitRepositorySpec.URL := "ssh://git@example.com/" +:+ name;
          GitRepositorySpec.SecretRef := LocalObjectReference.mk <$> secretRef;
          GitRepositorySpec.Interval := 60000000000;
          GitRepositorySpec.Timeout := None;
          GitRepositorySpec.Reference := None;
          GitRepositorySpec.Verification := None;
          GitRepositorySpec.Ignore := None;
          GitRepositorySpec.Suspend := false;
          GitRepositorySpec.GitImplementation := "" |};
     GitRepository.Status :=
       {| GitRepositoryStatus.ObservedGeneration := 1;
          GitRepositoryStatus.Conditions := [];
          GitRepositoryStatus.URL := "http://source-controller/" +:+ name;
          GitRepositoryStatus.Artifact := None;
          GitRepositoryStatus.LastHandledReconcileAt := "" |} |}.

Definition secret (name : string) : Secret.t :=
  {| Secret.TypeMeta := TypeMeta.mk "Secret" "v1";
     Secret.ObjectMeta := meta "flux-system" name (Some {[ "owner" := "team-a" ]});
     Secret.Immutable := None;
     Secret.Data := Some {[ "identity" := String.list_byte_of_string "key" ]};
     Secret.StringData := None;
     Secret.Type_ := "Opaque" |}.

Definition cluster : Cluster :=
  {| repositories := [repository "app" (Some "app-key"); repository "lib" None;
                      repository "infra" (Some "missing-key")];
     secrets := [secret "app-key"] |}.

Definition globals (all withCred : bool) : Globals.t :=
  {| Globals.rootArgs :=
       {| rootFlags.kubeconfig := "";
          rootFlags.kubecontext := "";
          rootFlags.namespace := "flux-system";
          rootFlags.timeout := 300000000000 |};
     Globals.exportArgs := {| exportFlags.all := all |};
     Globals.exportSourceWithCred := withCred |}.

Definition ctx : Context := WithTimeout Background 300000000000.
End Fake.

(** The value of a result, if it has one. *)
Definition errorless {A} (r : error + A) : option A :=
  match r with inl _ => None | inr a => Some a end.

(** The small cluster with a marshaller that also prints the owner label of
    an object, when it has one. *)
Module Labelled.
Definition marshal (tm : TypeMeta.t) (m : ObjectMeta.t) : error + list Byte.byte :=
  inr (String.list_byte_of_string
         (TypeMeta.Kind tm +:+ " " +:+ ObjectMeta.Namespace m +:+ "/" +:+
          ObjectMeta.Name m +:+
          match ObjectMeta.Labels m ≫= lookup "owner" with
          | Some owner => " owner=" +:+ owner
          | None => ""
          end)).

Definition env : Env.t Fake.Cluster :=
  {| Env.yaml_Marshal_GitRepository := λ r,
       marshal (GitRepository.TypeMeta r) (GitRepository.ObjectMeta r);
     Env.yaml_Marshal_Secret := λ s,
       marshal (Secret.TypeMeta s) (Secret.ObjectMeta s);
     Env.resourceToString := String.string_of_list_byte;
     Env.utils_KubeClient := λ _ _, inr Fake.client |}.
End Labelled.

(** ** How the three functions run *)

Section Runs.
Context {World : Type}.
Variable env : Env.t World.

Implicit Types (st : State.t World) (c : Client.t World) (w : World).

(** Printing a document costs two lines. *)
Definition document (data : list Byte.byte) : list Event :=
  [Stdout "---"; Stdout (Env.resourceToString env data)].

Definition extend st (evs : list Event) : State.t World :=
  State.mk (State.world st) (State.trace st ++ evs).

Lemma exportGit_run source st :
  exportGit env source st =
    match Env.yaml_Marshal_GitRepository env (exportGit_export source) with
    | inl e => (inl e, st)
    | inr data => (inr tt, extend st (document data))
    end.
Proof.
  unfold exportGit, mbind, M_bind, lift, fmt_Println, emit, extend, document.
  destruct (Env.yaml_Marshal_GitRepository env _) as [e|data]; [done|].
  cbn. by rewrite <- app_assoc.
Qed.

(** The key under which [exportGitCredentials] looks the Secret up. *)
Definition secretKey (source : GitRepository.t) (ref : LocalObjectReference.t)
  : NamespacedName.t :=
  {| NamespacedName.Namespace := GitRepository.Namespace source;
     NamespacedName.Name := LocalObjectReference.Name ref |}.

Definition secretError (key : NamespacedName.t) (err : error) : error :=
  fmt.Errorf_s_w "failed to retrieve secret " (NamespacedName.Name key) ", error: " err.

Lemma exportGitCredentials_run ctx c source st :
  exportGitCredentials env ctx c source st =
    match GitRepositorySpec.SecretRef (GitRepository.Spec source) with
    | None => (inr tt, st)
    | Some ref =>
        let key := secretKey source ref in
        match Client.Get_Secret c ctx key (State.world st) with
        | (inl err, w') =>
            (inl (secretError key err),
             State.mk w' (State.trace st ++ [Call ctx (ReqGetSecret key) (Some err)]))
        | (inr cred, w') =>
            match Env.yaml_Marshal_Secret env (exportGitCredentials_exported key cred) with
            | inl e =>
                (inl e, State.mk w' (State.trace st ++ [Call ctx (ReqGetSecret key) None]))
            | inr data =>
                (inr tt, State.mk w' (State.trace st ++
                           Call ctx (ReqGetSecret key) None :: document data))
            end
        end
    end.
Proof.
  unfold exportGitCredentials.
  destruct (GitRepositorySpec.SecretRef _) as [ref|]; [|done].
  fold (secretKey source ref). cbn zeta.
  unfold mbind, M_bind, attempt, kubeClient_Get_Secret, apiCall, lift, throw,
    fmt_Println, emit, document, secretError.
  destruct (Client.Get_Secret c ctx _ _) as [[err|cred] w']; cbn; [done|].
  destruct (Env.yaml_Marshal_Secret env _) as [e|data]; cbn; [done|].
  by rewrite <- !app_assoc.
Qed.

Variable g : Globals.t.

Lemma each_run ctx c repository st :
  exportSourceGitCmdRun_each env g ctx c repository st =
    match exportGit env repository st with
    | (inl e, st') => (inl e, st')
    | (inr _, st') =>
        if Globals.exportSourceWithCred g
        then exportGitCredentials env ctx c repository st'
        else (inr tt, st')
    end.
Proof.
  unfold exportSourceGitCmdRun_each, mbind, M_bind.
  destruct (exportGit env repository st) as [[e|[]] st']; [done|].
  by destruct (Globals.exportSourceWithCred g).
Qed.

Lemma forRange_cons {A} (x : A) (rest : list A) (body : A → M World unit) st :
  forRange (x :: rest) body st =
    match body x st with
    | (inl e, st') => (inl e, st')
    | (inr _, st') => forRange rest body st'
    end.
Proof. reflexivity. Qed.

Lemma forRange_app {A} (l1 l2 : list A) (body : A → M World unit) st :
  forRange (l1 ++ l2) body st =
    match forRange l1 body st with
    | (inl e, st') => (inl e, st')
    | (inr _, st') => forRange l2 body st'
    end.
Proof.
  revert st. induction l1 as [|x l1 IH]; intros st; [done|].
  cbn [app]. rewrite !forRange_cons.
  destruct (body x st) as [[e|[]] st']; [done|]. apply IH.
Qed.

(** The context of an invocation. *)
Definition commandContext : Context :=
  WithTimeout Background (rootFlags.timeout (Globals.rootArgs g)).

Definition requestedName (name : string) : NamespacedName.t :=
  {| NamespacedName.Namespace := rootFlags.namespace (Globals.rootArgs g);
     NamespacedName.Name := name |}.

Definition getClient : error + Client.t World :=
  Env.utils_KubeClient env (rootFlags.kubeconfig (Globals.rootArgs g))
                           (rootFlags.kubecontext (Globals.rootArgs g)).

(** Leaving the command: the result becomes the returned error and the
    deferred cancel is the last event. *)
Definition leave (r : (error + unit) * State.t World) : option error * State.t World :=
  (errorOf r.1, extend r.2 [Cancel commandContext]).

Lemma run_name_required w :
  exportFlags.all (Globals.exportArgs g) = false →
  run env g [] w = (Some (fmt.Errorf "name is required"), State.mk w []).
Proof. intros Hall. unfold run, exportSourceGitCmdRun. by rewrite Hall. Qed.

Lemma run_no_client args e w :
  (exportFlags.all (Globals.exportArgs g) = true ∨ args ≠ []) →
  getClient = inl e →
  run env g args w = (Some e, State.mk w [Cancel commandContext]).
Proof.
  intros Hargs Hc. unfold run, exportSourceGitCmdRun.
  replace (negb _ && _) with false
    by (destruct Hargs as [->|?]; [done|]; destruct args; [done|]; by rewrite andb_false_r).
  unfold defer, mbind, M_bind, lift. fold getClient. by rewrite Hc.
Qed.

Lemma run_all args c w :
  exportFlags.all (Globals.exportArgs g) = true →
  getClient = inr c →
  run env g args w =
    let ns := rootFlags.namespace (Globals.rootArgs g) in
    match Client.List c commandContext ns w with
    | (inl e, w') =>
        leave (inl e, State.mk w' [Call commandContext (ReqList ns) (Some e)])
    | (inr items, w') =>
        let st := State.mk w' [Call commandContext (ReqList ns) None] in
        match items with
        | [] => leave (inr tt, extend st
                  [LogFailure (fmt.Sprintf_s "no source found in " ns " namespace")])
        | _ => leave (forRange items (exportSourceGitCmdRun_each env g commandContext c) st)
        end
    end.
Proof.
  intros Hall Hc. unfold run, exportSourceGitCmdRun. rewrite Hall. cbn [negb andb].
  unfold defer, mbind, M_bind at 1, lift. fold getClient commandContext. rewrite Hc.
  unfold mbind, M_bind at 1, kubeClient_List, apiCall. cbn [State.world State.trace app].
  destruct (Client.List c _ _ w) as [[e|items] w']; [done|].
  destruct items as [|r items]; [done|].
  cbn [length Nat.eqb]. unfold leave.
  by destruct (forRange _ _ _) as [[?|?] ?].
Qed.

Lemma run_single name rest c w :
  exportFlags.all (Globals.exportArgs g) = false →
  getClient = inr c →
  run env g (name :: rest) w =
    let key := requestedName name in
    match Client.Get_GitRepository c commandContext key w with
    | (inl e, w') =>
        leave (inl e, State.mk w' [Call commandContext (ReqGetGitRepository key) (Some e)])
    | (inr repository, w') =>
        leave (exportSourceGitCmdRun_each env g commandContext c repository
                 (State.mk w' [Call commandContext (ReqGetGitRepository key) None]))
    end.
Proof.
  intros Hall Hc. unfold run, exportSourceGitCmdRun. rewrite Hall. cbn [negb andb length Nat.ltb Nat.leb].
  unfold defer, mbind, M_bind at 1, lift. fold getClient commandContext. rewrite Hc.
  fold (requestedName name).
  unfold mbind, M_bind at 1, kubeClient_Get_GitRepository, apiCall.
  cbn [State.world State.trace app].
  destruct (Client.Get_GitRepository c _ _ w) as [[e|repository] w']; [done|].
  unfold leave, exportSourceGitCmdRun_each, mbind.
  by destruct (M_bind _ _ _ _ _) as [[?|?] ?].
Qed.

End Runs.

(** ** The exported documents *)

Section Documents.
Context {World : Type}.
Variable env : Env.t World.

(** C1: [exportGit] marshals an object that has the name, namespace, labels,
    annotations and spec of its input, kind GitRepository with the
    group/version of the source API, and the zero value in the status and in
    every other field of the metadata; that object, marshalled, is the one
    document it prints. *)
Theorem exportGit_copies_metadata_and_spec (source : GitRepository.t) (st : State.t World) :
  let export := exportGit_export source in
  let meta := GitRepository.ObjectMeta export in
  (ObjectMeta.Name meta = ObjectMeta.Name (GitRepository.ObjectMeta source) ∧
   ObjectMeta.Namespace meta = ObjectMeta.Namespace (GitRepository.ObjectMeta source) ∧
   ObjectMeta.Labels meta = ObjectMeta.Labels (GitRepository.ObjectMeta source) ∧
   ObjectMeta.Annotations meta = ObjectMeta.Annotations (GitRepository.ObjectMeta source) ∧
   GitRepository.Spec export = GitRepository.Spec source) ∧
  (TypeMeta.Kind (GitRepository.TypeMeta export) = "GitRepository" ∧
   TypeMeta.APIVersion (GitRepository.TypeMeta export) = "source.toolkit.fluxcd.io/v1beta1") ∧
  (GitRepository.Status export = zero ∧
   ObjectMeta.ResourceVersion meta = "" ∧
   ObjectMeta.UID meta = "" ∧
   ObjectMeta.GenerateName meta = "" ∧
   ObjectMeta.SelfLink meta = "" ∧
   ObjectMeta.Generation meta = 0 ∧
   ObjectMeta.CreationTimestamp meta = 0 ∧
   ObjectMeta.DeletionTimestamp meta = None ∧
   ObjectMeta.DeletionGracePeriodSeconds meta = None ∧
   ObjectMeta.OwnerReferences meta = [] ∧
   ObjectMeta.Finalizers meta = [] ∧
   ObjectMeta.ClusterName meta = "" ∧
   ObjectMeta.ManagedFields meta = []) ∧
  exportGit env source st =
    match Env.yaml_Marshal_GitRepository env export with
    | inl e => (inl e, st)
    | inr data =>
        (inr tt, State.mk (State.world st)
                   (State.trace st ++ [Stdout "---"; Stdout (Env.resourceToString env data)]))
    end.
Proof.
  cbn zeta. split_and!; try reflexivity.
  apply exportGit_run.
Qed.

End Documents.

Section SecretDocument.
Context {World : Type}.
Variable env : Env.t World.
Variable g : Globals.t.

(** C3 (as amended): on the with-credentials path, once the Secret is
    fetched, what [exportGitCredentials] hands to the marshaller, and prints
    when the marshaller accepts it, is the Secret written out below: named by
    the repository's SecretRef, placed in the repository's namespace (the key
    of the Get), with apiVersion v1 and kind Secret, with the data and the type
    of the fetched Secret, and with labels, annotations and every other field
    of the metadata at the zero value, whatever the fetched Secret holds
    there.  The export of a repository by name prints that document right
    after the document of the repository. *)
Theorem credentials_path_exports_key_data_type (c : Client.t World)
    (source : GitRepository.t) (ref : LocalObjectReference.t) (cred : Secret.t) :
  GitRepositorySpec.SecretRef (GitRepository.Spec source) = Some ref →
  let key :=
    {| NamespacedName.Namespace := ObjectMeta.Namespace (GitRepository.ObjectMeta source);
       NamespacedName.Name := LocalObjectReference.Name ref |} in
  let exported :=
    {| Secret.TypeMeta := {| TypeMeta.Kind := "Secret"; TypeMeta.APIVersion := "v1" |};
       Secret.ObjectMeta :=
         {| ObjectMeta.Name := LocalObjectReference.Name ref;
            ObjectMeta.Namespace := ObjectMeta.Namespace (GitRepository.ObjectMeta source);
            ObjectMeta.Labels := None;
            ObjectMeta.Annotations := None;
            ObjectMeta.GenerateName := "";
            ObjectMeta.SelfLink := "";
            ObjectMeta.UID := "";
            ObjectMeta.ResourceVersion := "";
            ObjectMeta.Generation := 0;
            ObjectMeta.CreationTimestamp := 0;
            ObjectMeta.DeletionTimestamp := None;
            ObjectMeta.DeletionGracePeriodSeconds := None;
            ObjectMeta.OwnerReferences := [];
            ObjectMeta.Finalizers := [];
            ObjectMeta.ClusterName := "";
            ObjectMeta.ManagedFields := [] |};
       Secret.Immutable := None;
       Secret.Data := Secret.Data cred;
       Secret.StringData := None;
       Secret.Type_ := Secret.Type_ cred |} in
  (∀ cx (st : State.t World) w2,
     Client.Get_Secret c cx key (State.world st) = (inr cred, w2) →
     exportGitCredentials env cx c source st =
       match Env.yaml_Marshal_Secret env exported with
       | inl e =>
           (inl e, State.mk w2 (State.trace st ++ [Call cx (ReqGetSecret key) None]))
       | inr data =>
           (inr tt, State.mk w2 (State.trace st ++
              [Call cx (ReqGetSecret key) None;
               Stdout "---"; Stdout (Env.resourceToString env data)]))
       end) ∧
  (∀ name rest w w1 w2 gitData data,
     exportFlags.all (Globals.exportArgs g) = false →
     Globals.exportSourceWithCred g = true →
     getClient env g = inr c →
     Client.Get_GitRepository c (commandContext g) (requestedName g name) w
       = (inr source, w1) →
     Env.yaml_Marshal_GitRepository env (exportGit_export source) = inr gitData →
     Client.Get_Secret c (commandContext g) key w1 = (inr cred, w2) →
     Env.yaml_Marshal_Secret env exported = inr data →
     (run env g (name :: rest) w).1 = None ∧
     stdout (State.trace (run env g (name :: rest) w).2) =
       ["---"; Env.resourceToString env gitData;
        "---"; Env.resourceToString env data]).
Proof.
  intros Href key exported.
  assert (Hcred : ∀ cx (st : State.t World) w2,
     Client.Get_Secret c cx key (State.world st) = (inr cred, w2) →
     exportGitCredentials env cx c source st =
       match Env.yaml_Marshal_Secret env exported with
       | inl e =>
           (inl e, State.mk w2 (State.trace st ++ [Call cx (ReqGetSecret key) None]))
       | inr data =>
           (inr tt, State.mk w2 (State.trace st ++
              [Call cx (ReqGetSecret key) None;
               Stdout "---"; Stdout (Env.resourceToString env data)]))
       end).
  { intros cx st w2 Hget. rewrite exportGitCredentials_run, Href. cbn zeta.
    change (secretKey source ref) with key. rewrite Hget.
    change (exportGitCredentials_exported key cred) with exported.
    by destruct (Env.yaml_Marshal_Secret env exported). }
  split; [exact Hcred|].
  intros name rest w w1 w2 gitData data Hall Hwith Hc Hrepo Hgit Hget Hdata.
  rewrite (run_single env g name rest c w Hall Hc). cbn zeta.
  rewrite Hrepo, each_run, exportGit_run, Hgit, Hwith.
  rewrite (Hcred _ _ w2) by exact Hget. by rewrite Hdata.
Qed.

End SecretDocument.

(** C3, as the claim has it, fails on a Secret that carries a label.  With a
    marshaller that prints the owner label of an object, the Secret fetched
    for the repository app would print with its label, and the document that
    the export with credentials prints for it has none. *)
Lemma exported_secret_drops_labels :
  let result := run Labelled.env (Fake.globals false true) ["app"] Fake.cluster in
  let key := NamespacedName.mk "flux-system" "app-key" in
  let cred := Fake.secret "app-key" in
  Client.Get_Secret Fake.client Fake.ctx key Fake.cluster = (inr cred, Fake.cluster) ∧
  ObjectMeta.Labels (Secret.ObjectMeta cred) = Some {[ "owner" := "team-a" ]} ∧
  Env.resourceToString Labelled.env <$> errorless (Env.yaml_Marshal_Secret Labelled.env cred)
    = Some "Secret flux-system/app-key owner=team-a" ∧
  result.1 = None ∧
  stdout (State.trace result.2) =
    ["---"; "GitRepository flux-system/app"; "---"; "Secret flux-system/app-key"] ∧
  ObjectMeta.Labels (Secret.ObjectMeta (exportGitCredentials_exported key cred))
    ≠ ObjectMeta.Labels (Secret.ObjectMeta cred).
Proof. cbn zeta. split_and!; [reflexivity..|discriminate]. Qed.

(** ** Single invocations *)

Section Invocations.
Context {World : Type}.
Variable env : Env.t World.
Variable g : Globals.t.

Implicit Types (st : State.t World) (c : Client.t World) (w : World).

Local Abbreviation ctx := (commandContext g).
Local Abbreviation ns := (rootFlags.namespace (Globals.rootArgs g)).
Local Abbreviation all := (exportFlags.all (Globals.exportArgs g)).
Local Abbreviation withCred := (Globals.exportSourceWithCred g).

(** The else branch of the command reads [args[0]] only when there is one. *)
Lemma args_0_in_range (args : list string) :
  negb all && (length args <? 1)%nat = false → all = false →
  ∃ name rest, args = name :: rest.
Proof.
  intros Hcheck Hall. rewrite Hall in Hcheck.
  destruct args as [|name rest]; [done|]. by exists name, rest.
Qed.

(** C8: without --all and without a name the command returns the error "name
    is required" and does nothing else: the trace is empty (no API call, no
    output, not even a context to cancel) and the cluster is as it was. *)
Theorem name_is_required w :
  all = false →
  ∃ st,
    run env g [] w = (Some (errorString "name is required"), st) ∧
    State.trace st = [] ∧ calls (State.trace st) = [] ∧ stdout (State.trace st) = [] ∧
    State.world st = w.
Proof.
  intros Hall. exists (State.mk w []). by rewrite run_name_required.
Qed.

(** C9: for a repository without SecretRef [exportGitCredentials] returns nil
    and leaves the state as it found it (no Get, no output); so with
    credentials requested, the loop body prints the GitRepository document and
    nothing more, and the export of that one repository by name makes the one
    Get, prints the one document and returns nil. *)
Theorem no_secretRef_no_credentials c (repository : GitRepository.t) (data : list Byte.byte) :
  GitRepositorySpec.SecretRef (GitRepository.Spec repository) = None →
  (∀ st, exportGitCredentials env ctx c repository st = (inr tt, st)) ∧
  (withCred = true →
   Env.yaml_Marshal_GitRepository env (exportGit_export repository) = inr data →
   (∀ st, exportSourceGitCmdRun_each env g ctx c repository st =
            (inr tt, extend st (document env data))) ∧
   (∀ name rest w w',
      all = false →
      getClient env g = inr c →
      Client.Get_GitRepository c ctx (requestedName g name) w = (inr repository, w') →
      run env g (name :: rest) w =
        (None, State.mk w' (Call ctx (ReqGetGitRepository (requestedName g name)) None
                              :: document env data ++ [Cancel ctx])))).
Proof.
  intros Href.
  assert (Hcred : ∀ st, exportGitCredentials env ctx c repository st = (inr tt, st)).
  { intros st. by rewrite exportGitCredentials_run, Href. }
  split; [done|]. intros Hwith Hdata.
  assert (Heach : ∀ st, exportSourceGitCmdRun_each env g ctx c repository st =
                          (inr tt, extend st (document env data))).
  { intros st. by rewrite each_run, exportGit_run, Hdata, Hwith, Hcred. }
  split; [done|]. intros name rest w w' Hall Hc Hget.
  rewrite (run_single env g name rest c w Hall Hc). cbn zeta.
  by rewrite Hget, Heach.
Qed.

(** C10: with --all, when the List succeeds with no items, the command logs
    the failure "no source found in <namespace> namespace" and returns nil; it
    prints no document and makes no other call. *)
Theorem all_mode_empty_list (args : list string) c w w' :
  all = true →
  getClient env g = inr c →
  Client.List c ctx ns w = (inr [], w') →
  ∃ st,
    run env g args w = (None, st) ∧
    State.world st = w' ∧
    State.trace st =
      [Call ctx (ReqList ns) None;
       LogFailure ("no source found in " +:+ ns +:+ " namespace");
       Cancel ctx] ∧
    stdout (State.trace st) = [].
Proof.
  intros Hall Hc Hlist. eexists. split.
  - rewrite (run_all env g args c w Hall Hc). cbn zeta. rewrite Hlist. reflexivity.
  - done.
Qed.

(** C5: with --all, if the loop body succeeds on the repositories before
    position [k] and returns an error on the repository at position [k], the
    command returns that error, and the state it leaves is the state of the
    failure followed only by the deferred cancel; what the failing body added
    to the trace is at most the repository's document and one Get of its
    Secret, so nothing is printed or fetched for a later repository. *)
Theorem all_mode_stops_at_first_failure (args : list string) c w w'
    (items : list GitRepository.t) (k : nat) (repository : GitRepository.t)
    (err : error) (st_k st_fail : State.t World) :
  all = true →
  getClient env g = inr c →
  Client.List c ctx ns w = (inr items, w') →
  items !! k = Some repository →
  forRange (take k items) (exportSourceGitCmdRun_each env g ctx c)
    (State.mk w' [Call ctx (ReqList ns) None]) = (inr tt, st_k) →
  exportSourceGitCmdRun_each env g ctx c repository st_k = (inl err, st_fail) →
  run env g args w = (Some err, extend st_fail [Cancel ctx]) ∧
  ∃ evs : list Event,
    State.trace st_fail = State.trace st_k ++ evs ∧
    (evs = [] ∨
     ∃ data key e,
       evs = document env data ++ [Call ctx (ReqGetSecret key) e]).
Proof.
  intros Hall Hc Hlist Hk Hbefore Hfail. split.
  - rewrite (run_all env g args c w Hall Hc). cbn zeta. rewrite Hlist.
    destruct items as [|r0 items0] eqn:Hitems; [done|]. rewrite <- Hitems in *.
    rewrite <- (take_drop_middle items k repository Hk).
    by rewrite forRange_app, Hbefore, forRange_cons, Hfail.
  - revert Hfail. rewrite each_run, exportGit_run.
    destruct (Env.yaml_Marshal_GitRepository env _) as [e|data].
    { intros [= _ <-]. exists []. split; [by rewrite app_nil_r | by left]. }
    destruct withCred; [|done].
    rewrite exportGitCredentials_run.
    destruct (GitRepositorySpec.SecretRef _) as [ref|]; [|done].
    cbn zeta. cbn [extend State.world State.trace].
    destruct (Client.Get_Secret c _ _ _) as [[e|cred] w2].
    + intros [= _ <-]. eexists. split; [by rewrite <- app_assoc|]. right. by eexists _, _, _.
    + destruct (Env.yaml_Marshal_Secret env _) as [e|sdata]; [|done].
      intros [= _ <-]. eexists. split; [by rewrite <- app_assoc|]. right. by eexists _, _, _.
Qed.

End Invocations.

(** ** The shapes of a trace

    What an invocation can return and append to the trace, read off the three
    functions; [run_shape] shows that every run has one of these shapes.  The
    claims about all invocations are proved on the shapes. *)

Section Shapes.
Context {World : Type}.
Variable env : Env.t World.
Variable g : Globals.t.

Implicit Types (st : State.t World) (c : Client.t World) (w : World).
Implicit Types (evs : list Event) (r : error + unit).

Local Abbreviation ctx := (commandContext g).
Local Abbreviation ns := (rootFlags.namespace (Globals.rootArgs g)).
Local Abbreviation all := (exportFlags.all (Globals.exportArgs g)).
Local Abbreviation withCred := (Globals.exportSourceWithCred g).

(** One round of the loop body (also the tail of the export by name). *)
Inductive each_shape : error + unit → list Event → Prop :=
| each_marshal_error e :
    each_shape (inl e) []
| each_repository_only data :
    each_shape (inr tt) (document env data)
| each_secret_error data key e :
    withCred = true →
    each_shape (inl (secretError key e))
      (document env data ++ [Call ctx (ReqGetSecret key) (Some e)])
| each_secret_marshal_error data key e :
    withCred = true →
    each_shape (inl e) (document env data ++ [Call ctx (ReqGetSecret key) None])
| each_both data key secretData :
    withCred = true →
    each_shape (inr tt)
      (document env data ++ Call ctx (ReqGetSecret key) None :: document env secretData).

(** The loop: rounds that succeed, then the end of the list or a round that
    fails. *)
Inductive loop_shape : error + unit → list Event → Prop :=
| loop_end : loop_shape (inr tt) []
| loop_fail e evs : each_shape (inl e) evs → loop_shape (inl e) evs
| loop_next evs r evs' :
    each_shape (inr tt) evs → loop_shape r evs' → loop_shape r (evs ++ evs').

Inductive run_shape : option error → list Event → Prop :=
| run_name_required_shape :
    run_shape (Some (fmt.Errorf "name is required")) []
| run_no_client_shape e :
    run_shape (Some e) [Cancel ctx]
| run_list_error e :
    run_shape (Some e) [Call ctx (ReqList ns) (Some e); Cancel ctx]
| run_list_empty :
    run_shape None
      [Call ctx (ReqList ns) None;
       LogFailure (fmt.Sprintf_s "no source found in " ns " namespace");
       Cancel ctx]
| run_list_loop r evs :
    loop_shape r evs →
    run_shape (errorOf r) (Call ctx (ReqList ns) None :: evs ++ [Cancel ctx])
| run_get_error key e :
    run_shape (Some e) [Call ctx (ReqGetGitRepository key) (Some e); Cancel ctx]
| run_get_each key r evs :
    each_shape r evs →
    run_shape (errorOf r) (Call ctx (ReqGetGitRepository key) None :: evs ++ [Cancel ctx]).

Lemma each_has_shape c repository st :
  ∃ evs,
    State.trace (exportSourceGitCmdRun_each env g ctx c repository st).2
      = State.trace st ++ evs ∧
    each_shape (exportSourceGitCmdRun_each env g ctx c repository st).1 evs ∧
    (withCred = false → evs = [] ∨ ∃ data, evs = document env data).
Proof.
  rewrite each_run, exportGit_run.
  destruct (Env.yaml_Marshal_GitRepository env _) as [e|data].
  { exists []. rewrite app_nil_r. split_and!; [done|constructor|by left]. }
  destruct withCred eqn:Hwith.
  - rewrite exportGitCredentials_run.
    destruct (GitRepositorySpec.SecretRef _) as [ref|].
    + cbn zeta. cbn [extend State.world State.trace].
      destruct (Client.Get_Secret c _ _ _) as [[e|cred] w2].
      * eexists. cbn [fst snd State.trace]. rewrite <- app_assoc.
        split_and!; [done|by constructor|done].
      * destruct (Env.yaml_Marshal_Secret env _) as [e|secretData];
          eexists; cbn [fst snd State.trace]; rewrite <- app_assoc;
          (split_and!; [done|by constructor|done]).
    + eexists. split_and!; [done|constructor|done].
  - eexists. split_and!; [done|constructor|intros _; right; by eexists].
Qed.

Lemma loop_has_shape c (items : list GitRepository.t) st :
  ∃ evs,
    State.trace (forRange items (exportSourceGitCmdRun_each env g ctx c) st).2
      = State.trace st ++ evs ∧
    loop_shape (forRange items (exportSourceGitCmdRun_each env g ctx c) st).1 evs.
Proof.
  revert st. induction items as [|repository items IH]; intros st.
  - exists []. rewrite app_nil_r. split; [done|constructor].
  - rewrite forRange_cons.
    destruct (each_has_shape c repository st) as (evs & Htrace & Hshape & _).
    destruct (exportSourceGitCmdRun_each env g ctx c repository st) as [[e|[]] st'];
      cbn [fst snd] in *.
    + exists evs. split; [done|by constructor].
    + destruct (IH st') as (evs' & Htrace' & Hshape').
      exists (evs ++ evs'). rewrite Htrace', Htrace, <- app_assoc.
      split; [done|by econstructor].
Qed.

Lemma run_has_shape (args : list string) w :
  run_shape (run env g args w).1 (State.trace (run env g args w).2).
Proof.
  destruct all eqn:Hall.
  - destruct (getClient env g) as [e|c] eqn:Hc.
    { rewrite (run_no_client env g args e w) by auto. constructor. }
    rewrite (run_all env g args c w Hall Hc). cbn zeta.
    destruct (Client.List c _ _ w) as [[e|items] w']; [constructor|].
    destruct items as [|repository items]; [constructor|].
    destruct (loop_has_shape c (repository :: items)
                (State.mk w' [Call ctx (ReqList ns) None])) as (evs & Htrace & Hshape).
    unfold leave. cbn [fst snd extend State.trace]. rewrite Htrace.
    cbn [State.trace]. rewrite <- app_assoc. by constructor.
  - destruct args as [|name rest].
    { rewrite run_name_required by done. constructor. }
    destruct (getClient env g) as [e|c] eqn:Hc.
    { rewrite (run_no_client env g (name :: rest) e w) by auto. constructor. }
    rewrite (run_single env g name rest c w Hall Hc). cbn zeta.
    destruct (Client.Get_GitRepository c _ _ w) as [[e|repository] w']; [constructor|].
    destruct (each_has_shape c repository
                (State.mk w' [Call ctx (ReqGetGitRepository (requestedName g name)) None]))
      as (evs & Htrace & Hshape & _).
    unfold leave. cbn [fst snd extend State.trace]. rewrite Htrace.
    cbn [State.trace]. rewrite <- app_assoc. by constructor.
Qed.

End Shapes.

(** ** The export with credentials *)

Section Credentials.
Context {World : Type}.
Variable env : Env.t World.
Variable g : Globals.t.

Implicit Types (st : State.t World) (c : Client.t World) (w : World).

Local Abbreviation ctx := (commandContext g).
Local Abbreviation ns := (rootFlags.namespace (Globals.rootArgs g)).
Local Abbreviation all := (exportFlags.all (Globals.exportArgs g)).
Local Abbreviation withCred := (Globals.exportSourceWithCred g).

(** C2 (as amended): with credentials requested, for a repository whose
    SecretRef is set and whose document marshals, the loop body prints the
    document of the repository and then asks for the Secret named by the
    SecretRef in the namespace of the repository.  If that Get succeeds and
    the Secret marshals, the document of the Secret comes right after, and the
    body returns nil; if the Get fails, the document of the repository stays
    alone and the body returns the wrapped error; if the Secret does not
    marshal, it returns the marshaller's error.  The export by name is the Get
    of the repository, that outcome, and the deferred cancel; with --all, once
    the repositories before it are exported, the trace goes on with that
    outcome, and an error of it is the error of the command, followed by the
    cancel alone. *)
Theorem with_credentials_fetches_then_emits c (repository : GitRepository.t)
    (ref : LocalObjectReference.t) (gitData : list Byte.byte) :
  withCred = true →
  GitRepositorySpec.SecretRef (GitRepository.Spec repository) = Some ref →
  Env.yaml_Marshal_GitRepository env (exportGit_export repository) = inr gitData →
  let key :=
    {| NamespacedName.Namespace := ObjectMeta.Namespace (GitRepository.ObjectMeta repository);
       NamespacedName.Name := LocalObjectReference.Name ref |} in
  let gitDocument := [Stdout "---"; Stdout (Env.resourceToString env gitData)] in
  let outcome st : (error + unit) * State.t World :=
    match Client.Get_Secret c ctx key (State.world st) with
    | (inl err, w2) =>
        (inl (wrapError ("failed to retrieve secret " +:+ LocalObjectReference.Name ref +:+
                         ", error: " +:+ Error err) err),
         State.mk w2 (State.trace st ++ gitDocument ++
                      [Call ctx (ReqGetSecret key) (Some err)]))
    | (inr cred, w2) =>
        match Env.yaml_Marshal_Secret env (exportGitCredentials_exported key cred) with
        | inl e =>
            (inl e, State.mk w2 (State.trace st ++ gitDocument ++
                                 [Call ctx (ReqGetSecret key) None]))
        | inr secretData =>
            (inr tt, State.mk w2 (State.trace st ++ gitDocument ++
                                  [Call ctx (ReqGetSecret key) None;
                                   Stdout "---";
                                   Stdout (Env.resourceToString env secretData)]))
        end
    end in
  (∀ st, exportSourceGitCmdRun_each env g ctx c repository st = outcome st) ∧
  (∀ name rest w w1,
     all = false →
     getClient env g = inr c →
     Client.Get_GitRepository c ctx (requestedName g name) w = (inr repository, w1) →
     let st0 := State.mk w1 [Call ctx (ReqGetGitRepository (requestedName g name)) None] in
     run env g (name :: rest) w =
       (errorOf (outcome st0).1,
        State.mk (State.world (outcome st0).2)
                 (State.trace (outcome st0).2 ++ [Cancel ctx]))) ∧
  (∀ args w w' (items : list GitRepository.t) (k : nat) st_k,
     all = true →
     getClient env g = inr c →
     Client.List c ctx ns w = (inr items, w') →
     items !! k = Some repository →
     forRange (take k items) (exportSourceGitCmdRun_each env g ctx c)
       (State.mk w' [Call ctx (ReqList ns) None]) = (inr tt, st_k) →
     ∃ later,
       State.trace (run env g args w).2 = State.trace (outcome st_k).2 ++ later ∧
       (∀ e, (outcome st_k).1 = inl e →
             (run env g args w).1 = Some e ∧ later = [Cancel ctx])).
Proof.
  intros Hwith Href Hgit key gitDocument outcome.
  assert (Heach : ∀ st, exportSourceGitCmdRun_each env g ctx c repository st = outcome st).
  { intros st. unfold outcome.
    rewrite each_run, exportGit_run, Hgit, Hwith, exportGitCredentials_run, Href.
    cbn zeta. change (secretKey repository ref) with key.
    cbn [extend State.world State.trace].
    destruct (Client.Get_Secret c ctx key (State.world st)) as [[err|cred] w2].
    - unfold secretError, fmt.Errorf_s_w, document, gitDocument. cbn [NamespacedName.Name key].
      by rewrite <- app_assoc.
    - destruct (Env.yaml_Marshal_Secret env _) as [e|secretData];
        unfold document, gitDocument; by rewrite <- app_assoc. }
  split; [exact Heach|]. split.
  - intros name rest w w1 Hall Hc Hrepo st0.
    rewrite (run_single env g name rest c w Hall Hc). cbn zeta.
    by rewrite Hrepo, Heach.
  - intros args w w' items k st_k Hall Hc Hlist Hk Hbefore.
    rewrite (run_all env g args c w Hall Hc). cbn zeta. rewrite Hlist.
    destruct items as [|r0 items0] eqn:Hitems; [done|]. rewrite <- Hitems in *.
    rewrite <- (take_drop_middle items k repository Hk).
    rewrite forRange_app, Hbefore, forRange_cons, Heach.
    destruct (outcome st_k) as [[e|[]] st'].
    + exists [Cancel ctx]. split; [done|]. by intros e' [= <-].
    + destruct (loop_has_shape env g c (drop (S k) items) st') as (evs & Htrace & _).
      exists (evs ++ [Cancel ctx]). split; [|done].
      unfold leave. cbn [fst snd extend State.trace]. by rewrite Htrace, app_assoc.
Qed.

End Credentials.

(** ** All invocations *)

Section AllInvocations.
Context {World : Type}.
Variable env : Env.t World.
Variable g : Globals.t.

Implicit Types (st : State.t World) (c : Client.t World) (w : World).
Implicit Types (evs tr : list Event) (r : error + unit).

Local Abbreviation ctx := (commandContext g).
Local Abbreviation ns := (rootFlags.namespace (Globals.rootArgs g)).
Local Abbreviation all := (exportFlags.all (Globals.exportArgs g)).
Local Abbreviation withCred := (Globals.exportSourceWithCred g).

(** An event of the body of the command: a call under the command's context,
    or output; never a cancel. *)
Definition bodyEvent (ev : Event) : Prop :=
  match ev with
  | Call c _ _ => c = ctx
  | Cancel _ => False
  | _ => True
  end.

Lemma document_body data : Forall bodyEvent (document env data).
Proof. by repeat constructor. Qed.

Lemma each_shape_body r evs : each_shape env g r evs → Forall bodyEvent evs.
Proof.
  destruct 1;
    repeat first [apply Forall_app_2 | apply document_body | apply Forall_nil_2
                 | apply Forall_cons_2; [done|] ].
Qed.

Lemma loop_shape_body r evs : loop_shape env g r evs → Forall bodyEvent evs.
Proof.
  induction 1 as [|e evs Heach|evs r evs' Heach _ IH].
  - constructor.
  - by eapply each_shape_body.
  - apply Forall_app. split; [by eapply each_shape_body|done].
Qed.

Lemma run_shape_body e tr :
  run_shape env g e tr → tr = [] ∨ ∃ body, tr = body ++ [Cancel ctx] ∧ Forall bodyEvent body.
Proof.
  destruct 1 as [|e|e| |r evs Hloop|key e|key r evs Heach]; [by left|right..].
  - by exists [].
  - exists [Call ctx (ReqList ns) (Some e)]. split; [done|]. by repeat constructor.
  - eexists [_; _]. split; [done|]. by repeat constructor.
  - exists (Call ctx (ReqList ns) None :: evs). split; [done|].
    constructor; [done|]. by eapply loop_shape_body.
  - exists [Call ctx (ReqGetGitRepository key) (Some e)]. split; [done|]. by repeat constructor.
  - exists (Call ctx (ReqGetGitRepository key) None :: evs). split; [done|].
    constructor; [done|]. by eapply each_shape_body.
Qed.

(** C7: every API call of an invocation (the List, the Get of the repository,
    the Gets of Secrets) is given the one context built from the background
    context with rootArgs.timeout, and that context is cancelled only by the
    deferred cancel, which is the last event of the invocation: no call is
    made after a cancel and none under another context. *)
Theorem calls_under_command_context (args : list string) w :
  let tr := State.trace (run env g args w).2 in
  let timed := WithTimeout Background (rootFlags.timeout (Globals.rootArgs g)) in
  (∀ cx req err, Call cx req err ∈ tr → cx = timed) ∧
  (∀ i cx, tr !! i = Some (Cancel cx) → cx = timed ∧ S i = length tr).
Proof.
  cbn zeta. destruct (run_shape_body _ _ (run_has_shape env g args w))
    as [->|(body & -> & Hbody)].
  { split; [by intros cx req err ?%elem_of_nil | by intros i cx ?]. }
  split.
  - intros cx req err [Hin|Hin%list_elem_of_singleton]%elem_of_app; [|done].
    apply list_elem_of_lookup_1 in Hin as [i Hi].
    exact (Forall_lookup_1 _ _ _ _ Hbody Hi).
  - intros i cx [Hin|[Hlen Hlast]]%lookup_app_Some.
    + by apply (Forall_lookup_1 _ _ _ _ Hbody) in Hin.
    + apply list_lookup_singleton_Some in Hlast as [Hi [= <-]].
      rewrite length_app. cbn. split; [done|lia].
Qed.

(** Take a membership in a list written with [::] and [++] apart. *)
Ltac elems H :=
  repeat first
    [ apply elem_of_nil in H as []
    | apply elem_of_cons in H as [H|H]
    | apply elem_of_app in H as [H|H] ].

Lemma each_failed_call r evs (c : Context) req e :
  each_shape env g r evs → Call c req (Some e) ∈ evs →
  ∃ key, req = ReqGetSecret key ∧ r = inl (secretError key e).
Proof.
  unfold document.
  destruct 1; intros Hin; elems Hin; simplify_eq; by eexists.
Qed.

Lemma loop_failed_call r evs (c : Context) req e :
  loop_shape env g r evs → Call c req (Some e) ∈ evs →
  ∃ key, req = ReqGetSecret key ∧ r = inl (secretError key e).
Proof.
  induction 1 as [|e' evs Heach|evs r evs' Heach _ IH].
  - by intros ?%elem_of_nil.
  - by apply each_failed_call.
  - intros [Hin|Hin]%elem_of_app; [|by apply IH].
    by destruct (each_failed_call _ _ _ _ _ Heach Hin) as (? & _ & ?).
Qed.

(** Which error the command returns for a call that failed. *)
Definition surfaced (req : Request) (e : error) : error :=
  match req with
  | ReqList _ | ReqGetGitRepository _ => e
  | ReqGetSecret key =>
      wrapError ("failed to retrieve secret " +:+ NamespacedName.Name key +:+
                 ", error: " +:+ Error e) e
  end.

Lemma run_failed_call ret tr (c : Context) req e :
  run_shape env g ret tr → Call c req (Some e) ∈ tr → ret = Some (surfaced req e).
Proof.
  destruct 1 as [|e'|e'| |r evs Hloop|key e'|key r evs Heach]; intros Hin.
  - elems Hin.
  - elems Hin; simplify_eq.
  - elems Hin; by simplify_eq.
  - elems Hin; simplify_eq.
  - apply elem_of_cons in Hin as [?|[Hin|Hin]%elem_of_app]; [done| |elems Hin; done].
    by destruct (loop_failed_call _ _ _ _ _ Hloop Hin) as (key & -> & ->).
  - elems Hin; by simplify_eq.
  - apply elem_of_cons in Hin as [?|[Hin|Hin]%elem_of_app]; [done| |elems Hin; done].
    by destruct (each_failed_call _ _ _ _ _ Heach Hin) as (key' & -> & ->).
Qed.

(** C4 (as amended): when an API call of an invocation fails, the command
    returns the client's error itself if the call is the List or the Get of
    the repository; if it is the Get of a Secret, the command returns a new
    error that wraps the client's error, with the message "failed to retrieve
    secret <name>, error: <message of the client's error>". *)
Theorem api_error_surfaced (args : list string) w (c : Context) (req : Request) (e : error) :
  Call c req (Some e) ∈ State.trace (run env g args w).2 →
  (run env g args w).1 = Some (surfaced req e) ∧
  match req with
  | ReqList _ | ReqGetGitRepository _ => surfaced req e = e
  | ReqGetSecret key =>
      Unwrap (surfaced req e) = Some e ∧
      Error (surfaced req e) =
        "failed to retrieve secret " +:+ NamespacedName.Name key +:+ ", error: " +:+ Error e
  end.
Proof.
  intros Hin. split.
  - eapply run_failed_call; [apply run_has_shape|done].
  - by destruct req.
Qed.

End AllInvocations.

(** ** Counting the calls *)

Section Counting.
Context {World : Type}.
Variable env : Env.t World.
Variable g : Globals.t.

Implicit Types (st : State.t World) (c : Client.t World) (w : World).
Implicit Types (evs tr : list Event) (r : error + unit).

Local Abbreviation ctx := (commandContext g).
Local Abbreviation ns := (rootFlags.namespace (Globals.rootArgs g)).
Local Abbreviation all := (exportFlags.all (Globals.exportArgs g)).
Local Abbreviation withCred := (Globals.exportSourceWithCred g).

Lemma calls_app evs evs' : calls (evs ++ evs') = calls evs ++ calls evs'.
Proof. apply List.filter_app. Qed.

Lemma calls_document data : calls (document env data) = [].
Proof. reflexivity. Qed.

(** A round of the loop body makes no call, or one Get of a Secret; none when
    credentials are not requested. *)
Lemma each_shape_calls r evs :
  each_shape env g r evs →
  (calls evs = [] ∨ ∃ key err, calls evs = [Call ctx (ReqGetSecret key) err]) ∧
  (withCred = false → calls evs = []).
Proof.
  destruct 1 as [e|data|data key e Hwith|data key e Hwith|data key secretData Hwith];
    rewrite ?calls_app, ?calls_document; cbn;
    (split; [eauto | try done; by rewrite Hwith]).
Qed.

Lemma loop_shape_calls r evs :
  loop_shape env g r evs →
  Forall (λ ev, isSecretGet ev = true) (calls evs) ∧
  (withCred = false → calls evs = []).
Proof.
  induction 1 as [|e evs Heach|evs r evs' Heach _ [IHsecret IHnone]].
  - by split.
  - destruct (each_shape_calls _ _ Heach) as [[->|(key & err & ->)] Hnone];
      split; by repeat constructor.
  - rewrite calls_app. destruct (each_shape_calls _ _ Heach) as [Hone Hnone]. split.
    + apply Forall_app_2; [|done].
      destruct Hone as [->|(key & err & ->)]; by repeat constructor.
    + intros Hwith. by rewrite Hnone, IHnone.
Qed.

(** C6 (as amended): an invocation that passes the check of its arguments and
    obtains a client makes exactly one List or Get of GitRepository objects,
    and that call is its first event: with --all it is the List in the
    namespace of the command, otherwise the Get of the repository named by the
    first argument in that namespace, both under the command's context; every
    further call is a Get of a Secret; there is none when credentials are not
    requested, and at most one when a single repository is exported by name. *)
Theorem one_repository_call (args : list string) c w :
  all = true ∨ args ≠ [] →
  getClient env g = inr c →
  ∃ first rest,
    calls (State.trace (run env g args w).2) = first :: rest ∧
    head (State.trace (run env g args w).2) = Some first ∧
    isRepositoryCall first = true ∧
    (all = true → ∃ err, first = Call ctx (ReqList ns) err) ∧
    (all = false →
     ∃ name others err,
       args = name :: others ∧
       first = Call ctx (ReqGetGitRepository (requestedName g name)) err) ∧
    Forall (λ ev, isSecretGet ev = true) rest ∧
    (withCred = false → rest = []) ∧
    (all = false → (length rest ≤ 1)%nat).
Proof.
  intros Hargs Hc. destruct all eqn:Hall.
  - rewrite (run_all env g args c w Hall Hc). cbn zeta.
    destruct (Client.List c _ _ w) as [[e|items] w'].
    { exists (Call ctx (ReqList ns) (Some e)), [].
      split_and!; try done. intros _. by eexists. }
    destruct items as [|repository items].
    { exists (Call ctx (ReqList ns) None), [].
      split_and!; try done. intros _. by eexists. }
    destruct (loop_has_shape env g c (repository :: items)
                (State.mk w' [Call ctx (ReqList ns) None])) as (evs & Htrace & Hshape).
    destruct (loop_shape_calls _ _ Hshape) as [Hsecret Hnone].
    unfold leave. cbn [fst snd extend State.trace]. rewrite Htrace. cbn [State.trace app].
    exists (Call ctx (ReqList ns) None), (calls evs).
    split_and!; try done.
    + cbn. by rewrite calls_app, app_nil_r.
    + intros _. by eexists.
  - destruct Hargs as [|Hargs]; [done|]. destruct args as [|name rest]; [done|].
    rewrite (run_single env g name rest c w Hall Hc). cbn zeta.
    destruct (Client.Get_GitRepository c _ _ w) as [[e|repository] w'].
    { exists (Call ctx (ReqGetGitRepository (requestedName g name)) (Some e)), [].
      split_and!; try done; [|cbn; lia]. intros _. by eexists _, _, _. }
    destruct (each_has_shape env g c repository
                (State.mk w' [Call ctx (ReqGetGitRepository (requestedName g name)) None]))
      as (evs & Htrace & Hshape & _).
    destruct (each_shape_calls _ _ Hshape) as [Hone Hnone].
    unfold leave. cbn [fst snd extend State.trace]. rewrite Htrace. cbn [State.trace app].
    exists (Call ctx (ReqGetGitRepository (requestedName g name)) None), (calls evs).
    split_and!; try done.
    + cbn. by rewrite calls_app, app_nil_r.
    + intros _. by eexists _, _, _.
    + destruct Hone as [->|(key & err & ->)]; by repeat constructor.
    + intros _. destruct Hone as [->|(key & err & ->)]; cbn; lia.
Qed.

End Counting.

(** ** Runs on the small cluster *)

(** C4, as the claim has it, fails when the Get of a Secret fails: the client
    says NotFound, and the command returns another error, which wraps it. *)
Lemma secret_error_is_wrapped :
  let result := run Fake.env (Fake.globals false true) ["infra"] Fake.cluster in
  let key := NamespacedName.mk "flux-system" "missing-key" in
  let e := StatusError "NotFound" "missing-key not found" in
  Call Fake.ctx (ReqGetSecret key) (Some e) ∈ State.trace result.2 ∧
  result.1 =
    Some (wrapError "failed to retrieve secret missing-key, error: missing-key not found" e) ∧
  result.1 ≠ Some e.
Proof.
  cbn zeta. split_and!.
  - apply (list_elem_of_lookup_2 _ 3). reflexivity.
  - reflexivity.
  - discriminate.
Qed.

(** C6, as the claim has it, fails with --with-credentials on a repository
    that has a SecretRef: the invocation makes two calls, the Get of the
    repository and the Get of the Secret. *)
Lemma with_credentials_two_calls :
  calls (State.trace (run Fake.env (Fake.globals false true) ["app"] Fake.cluster).2) =
    [Call Fake.ctx (ReqGetGitRepository (NamespacedName.mk "flux-system" "app")) None;
     Call Fake.ctx (ReqGetSecret (NamespacedName.mk "flux-system" "app-key")) None] ∧
  length (calls (State.trace
            (run Fake.env (Fake.globals false true) ["app"] Fake.cluster).2)) ≠ 1%nat.
Proof. split; [reflexivity|discriminate]. Qed.

Lemma name_is_required_witness :
  exportFlags.all (Globals.exportArgs (Fake.globals false true)) = false ∧
  ∃ st,
    run Fake.env (Fake.globals false true) [] Fake.cluster =
      (Some (errorString "name is required"), st) ∧
    State.trace st = [] ∧ calls (State.trace st) = [] ∧ stdout (State.trace st) = [] ∧
    State.world st = Fake.cluster.
Proof.
  split; [reflexivity|].
  apply (name_is_required Fake.env (Fake.globals false true) Fake.cluster). reflexivity.
Defined.

Lemma no_secretRef_no_credentials_witness :
  let repository := Fake.repository "lib" None in
  let data := String.list_byte_of_string "GitRepository flux-system/lib" in
  GitRepositorySpec.SecretRef (GitRepository.Spec repository) = None ∧
  exportGitCredentials Fake.env Fake.ctx Fake.client repository (State.mk Fake.cluster [])
    = (inr tt, State.mk Fake.cluster []) ∧
  run Fake.env (Fake.globals false true) ["lib"] Fake.cluster =
    (None, State.mk Fake.cluster
             [Call Fake.ctx (ReqGetGitRepository (NamespacedName.mk "flux-system" "lib")) None;
              Stdout "---"; Stdout "GitRepository flux-system/lib";
              Cancel Fake.ctx]).
Proof.
  cbn zeta.
  destruct (no_secretRef_no_credentials Fake.env (Fake.globals false true) Fake.client
              (Fake.repository "lib" None)
              (String.list_byte_of_string "GitRepository flux-system/lib") eq_refl)
    as [Hcred Hrun].
  split; [reflexivity|]. split; [apply Hcred|].
  destruct (Hrun eq_refl eq_refl) as [_ Hname].
  exact (Hname "lib" [] Fake.cluster Fake.cluster eq_refl eq_refl eq_refl).
Defined.

Lemma all_mode_empty_list_witness :
  let empty := Fake.mkCluster [] [Fake.secret "app-key"] in
  Client.List Fake.client Fake.ctx "flux-system" empty = (inr [], empty) ∧
  ∃ st,
    run Fake.env (Fake.globals true false) [] empty = (None, st) ∧
    State.world st = empty ∧
    State.trace st =
      [Call Fake.ctx (ReqList "flux-system") None;
       LogFailure "no source found in flux-system namespace";
       Cancel Fake.ctx] ∧
    stdout (State.trace st) = [].
Proof.
  cbn zeta. split; [reflexivity|].
  exact (all_mode_empty_list Fake.env (Fake.globals true false) [] Fake.client
           (Fake.mkCluster [] [Fake.secret "app-key"]) _ eq_refl eq_refl eq_refl).
Defined.

Lemma credentials_path_exports_key_data_type_witness :
  let g := Fake.globals false true in
  let source := Fake.repository "app" (Some "app-key") in
  let key := NamespacedName.mk "flux-system" "app-key" in
  (GitRepositorySpec.SecretRef (GitRepository.Spec source)
     = Some (LocalObjectReference.mk "app-key") ∧
   Client.Get_Secret Fake.client Fake.ctx key Fake.cluster
     = (inr (Fake.secret "app-key"), Fake.cluster)) ∧
  exportGitCredentials Labelled.env Fake.ctx Fake.client source (State.mk Fake.cluster []) =
    (inr tt, State.mk Fake.cluster
               [Call Fake.ctx (ReqGetSecret key) None;
                Stdout "---"; Stdout "Secret flux-system/app-key"]) ∧
  (run Labelled.env g ["app"] Fake.cluster).1 = None ∧
  stdout (State.trace (run Labelled.env g ["app"] Fake.cluster).2) =
    ["---"; "GitRepository flux-system/app"; "---"; "Secret flux-system/app-key"].
Proof.
  intros g source key. split; [by split|].
  destruct (credentials_path_exports_key_data_type Labelled.env g Fake.client source
              (LocalObjectReference.mk "app-key") (Fake.secret "app-key") eq_refl)
    as [Hcred Hname].
  split.
  - exact (Hcred Fake.ctx (State.mk Fake.cluster []) Fake.cluster eq_refl).
  - exact (Hname "app" [] Fake.cluster Fake.cluster Fake.cluster
             (String.list_byte_of_string "GitRepository flux-system/app")
             (String.list_byte_of_string "Secret flux-system/app-key")
             eq_refl eq_refl eq_refl eq_refl eq_refl eq_refl eq_refl).
Defined.

(** C2, as the claim has it, fails when the Secret is not there: the
    repository infra has a SecretRef, the export with credentials prints the
    document of the repository alone, and returns an error. *)
Lemma missing_secret_one_document :
  let result := run Fake.env (Fake.globals false true) ["infra"] Fake.cluster in
  let repository := Fake.repository "infra" (Some "missing-key") in
  Client.Get_GitRepository Fake.client Fake.ctx
    (NamespacedName.mk "flux-system" "infra") Fake.cluster = (inr repository, Fake.cluster) ∧
  GitRepositorySpec.SecretRef (GitRepository.Spec repository)
    = Some (LocalObjectReference.mk "missing-key") ∧
  stdout (State.trace result.2) = ["---"; "GitRepository flux-system/infra"] ∧
  result.1 =
    Some (wrapError "failed to retrieve secret missing-key, error: missing-key not found"
            (StatusError "NotFound" "missing-key not found")).
Proof. cbn zeta. by split_and!. Qed.

Lemma with_credentials_fetches_then_emits_witness :
  let repository := Fake.repository "app" (Some "app-key") in
  let key := NamespacedName.mk "flux-system" "app-key" in
  let both :=
    [Stdout "---"; Stdout "GitRepository flux-system/app";
     Call Fake.ctx (ReqGetSecret key) None;
     Stdout "---"; Stdout "Secret flux-system/app-key"] in
  (GitRepositorySpec.SecretRef (GitRepository.Spec repository)
     = Some (LocalObjectReference.mk "app-key") ∧
   Fake.repositories Fake.cluster !! 0%nat = Some repository) ∧
  exportSourceGitCmdRun_each Fake.env (Fake.globals false true) Fake.ctx Fake.client
    repository (State.mk Fake.cluster []) = (inr tt, State.mk Fake.cluster both) ∧
  run Fake.env (Fake.globals false true) ["app"] Fake.cluster =
    (None, State.mk Fake.cluster
             (Call Fake.ctx (ReqGetGitRepository (NamespacedName.mk "flux-system" "app")) None
                :: both ++ [Cancel Fake.ctx])) ∧
  ∃ later,
    State.trace (run Fake.env (Fake.globals true true) [] Fake.cluster).2 =
      (Call Fake.ctx (ReqList "flux-system") None :: both) ++ later.
Proof.
  intros repository key both. split; [by split|].
  destruct (with_credentials_fetches_then_emits Fake.env (Fake.globals false true)
              Fake.client repository (LocalObjectReference.mk "app-key")
              (String.list_byte_of_string "GitRepository flux-system/app")
              eq_refl eq_refl eq_refl) as (Heach & Hname & _).
  destruct (with_credentials_fetches_then_emits Fake.env (Fake.globals true true)
              Fake.client repository (LocalObjectReference.mk "app-key")
              (String.list_byte_of_string "GitRepository flux-system/app")
              eq_refl eq_refl eq_refl) as (_ & _ & Hall).
  split_and!.
  - exact (Heach (State.mk Fake.cluster [])).
  - exact (Hname "app" [] Fake.cluster Fake.cluster eq_refl eq_refl eq_refl).
  - destruct (Hall [] Fake.cluster Fake.cluster (Fake.repositories Fake.cluster) 0%nat
                (State.mk Fake.cluster [Call Fake.ctx (ReqList "flux-system") None])
                eq_refl eq_refl eq_refl eq_refl eq_refl) as (later & Htrace & _).
    exists later. exact Htrace.
Defined.

Lemma all_mode_stops_at_first_failure_witness :
  let g := Fake.globals true true in
  let items := [Fake.repository "app" (Some "app-key");
                Fake.repository "infra" (Some "missing-key");
                Fake.repository "lib" None] in
  let w := Fake.mkCluster items [Fake.secret "app-key"] in
  let key := NamespacedName.mk "flux-system" "missing-key" in
  let err := secretError key (StatusError "NotFound" "missing-key not found") in
  let st_k :=
    State.mk w [Call Fake.ctx (ReqList "flux-system") None;
                Stdout "---"; Stdout "GitRepository flux-system/app";
                Call Fake.ctx (ReqGetSecret (NamespacedName.mk "flux-system" "app-key")) None;
                Stdout "---"; Stdout "Secret flux-system/app-key"] in
  let st_fail :=
    extend st_k
      [Stdout "---"; Stdout "GitRepository flux-system/infra";
       Call Fake.ctx (ReqGetSecret key) (Some (StatusError "NotFound" "missing-key not found"))] in
  (Client.List Fake.client Fake.ctx "flux-system" w = (inr items, w) ∧
   items !! 1%nat = Some (Fake.repository "infra" (Some "missing-key")) ∧
   forRange (take 1 items) (exportSourceGitCmdRun_each Fake.env g Fake.ctx Fake.client)
     (State.mk w [Call Fake.ctx (ReqList "flux-system") None]) = (inr tt, st_k) ∧
   exportSourceGitCmdRun_each Fake.env g Fake.ctx Fake.client
     (Fake.repository "infra" (Some "missing-key")) st_k = (inl err, st_fail)) ∧
  run Fake.env g [] w = (Some err, extend st_fail [Cancel Fake.ctx]) ∧
  stdout (State.trace (run Fake.env g [] w).2) =
    ["---"; "GitRepository flux-system/app"; "---"; "Secret flux-system/app-key";
     "---"; "GitRepository flux-system/infra"].
Proof.
  intros g items w key err st_k st_fail. split; [by split_and!|].
  split; [|reflexivity].
  exact (proj1 (all_mode_stops_at_first_failure Fake.env g [] Fake.client w w items 1
                  (Fake.repository "infra" (Some "missing-key")) err st_k st_fail
                  eq_refl eq_refl eq_refl eq_refl eq_refl eq_refl)).
Defined.

Lemma api_error_surfaced_witness :
  let g := Fake.globals false false in
  let key := NamespacedName.mk "flux-system" "nowhere" in
  let e := StatusError "NotFound" "nowhere not found" in
  Call Fake.ctx (ReqGetGitRepository key) (Some e)
    ∈ State.trace (run Fake.env g ["nowhere"] Fake.cluster).2 ∧
  (run Fake.env g ["nowhere"] Fake.cluster).1 = Some e.
Proof.
  cbn zeta.
  assert (Hin : Call Fake.ctx
                  (ReqGetGitRepository (NamespacedName.mk "flux-system" "nowhere"))
                  (Some (StatusError "NotFound" "nowhere not found"))
                ∈ State.trace (run Fake.env (Fake.globals false false)
                                 ["nowhere"] Fake.cluster).2).
  { apply (list_elem_of_lookup_2 _ 0). reflexivity. }
  split; [exact Hin|].
  exact (proj1 (api_error_surfaced Fake.env (Fake.globals false false) ["nowhere"]
                  Fake.cluster _ _ _ Hin)).
Defined.

Lemma one_repository_call_witness :
  let g := Fake.globals true false in
  (exportFlags.all (Globals.exportArgs g) = true ∨ @nil string ≠ []) ∧
  getClient Fake.env g = inr Fake.client ∧
  ∃ first rest,
    calls (State.trace (run Fake.env g [] Fake.cluster).2) = first :: rest ∧
    head (State.trace (run Fake.env g [] Fake.cluster).2) = Some first ∧
    isRepositoryCall first = true ∧
    (exportFlags.all (Globals.exportArgs g) = true →
     ∃ err, first = Call Fake.ctx (ReqList "flux-system") err) ∧
    (exportFlags.all (Globals.exportArgs g) = false →
     ∃ name others err,
       [] = name :: others ∧
       first = Call Fake.ctx (ReqGetGitRepository (requestedName g name)) err) ∧
    Forall (λ ev, isSecretGet ev = true) rest ∧
    (Globals.exportSourceWithCred g = false → rest = []) ∧
    (exportFlags.all (Globals.exportArgs g) = false → (length rest ≤ 1)%nat).
Proof.
  cbn zeta. split; [by left|]. split; [reflexivity|].
  exact (one_repository_call Fake.env (Fake.globals true false) [] Fake.client Fake.cluster
           (or_introl eq_refl) eq_refl).
Defined.

(** ** Further behaviour of the command: arguments, client, marshalling *)

Section Paths.
Context {World : Type}.
Variable env : Env.t World.
Variable g : Globals.t.

Implicit Types (st : State.t World) (c : Client.t World) (w : World).

Local Abbreviation ctx := (commandContext g).
Local Abbreviation ns := (rootFlags.namespace (Globals.rootArgs g)).
Local Abbreviation all := (exportFlags.all (Globals.exportArgs g)).
Local Abbreviation withCred := (Globals.exportSourceWithCred g).

(** X1: positional arguments the command does not need are ignored: with
    --all every argument is, and without --all every argument after the first
    is.  The invocation behaves as the one without them. *)
Theorem extra_arguments_ignored (args : list string) w :
  run env g args w = run env g (if all then [] else take 1 args) w.
Proof.
  unfold run, exportSourceGitCmdRun. destruct all eqn:Hall.
  - reflexivity.
  - by destruct args as [|name rest].
Qed.

(** X2: when the client cannot be built, the command returns the error of
    [utils.KubeClient] as it is; it makes no API call, prints nothing, leaves
    the cluster alone, and still cancels the context it had created. *)
Theorem client_error_returned (args : list string) (e : error) w :
  all = true ∨ args ≠ [] →
  getClient env g = inl e →
  (run env g args w).1 = Some e ∧
  State.trace (run env g args w).2 = [Cancel ctx] ∧
  calls (State.trace (run env g args w).2) = [] ∧
  stdout (State.trace (run env g args w).2) = [] ∧
  State.world (run env g args w).2 = w.
Proof.
  intros Hargs Hc. by rewrite (run_no_client env g args e w Hargs Hc).
Qed.

Lemma leave_last (r : (error + unit) * State.t World) :
  ∃ body, State.trace (leave g r).2 = body ++ [Cancel ctx].
Proof. by exists (State.trace r.2). Qed.

(** X3: the deferred cancel runs on every path behind the check of the
    arguments: whatever the client, the cluster and the marshaller do, the
    last event of such an invocation is the cancel of the command's context. *)
Theorem context_always_cancelled (args : list string) w :
  all = true ∨ args ≠ [] →
  ∃ body, State.trace (run env g args w).2 = body ++ [Cancel ctx].
Proof.
  intros Hargs. destruct (getClient env g) as [e|c] eqn:Hc.
  { rewrite (run_no_client env g args e w Hargs Hc). by exists []. }
  destruct all eqn:Hall.
  - rewrite (run_all env g args c w Hall Hc). cbn zeta.
    destruct (Client.List c _ _ w) as [[e|[|repository items]] w']; apply leave_last.
  - destruct Hargs as [|Hargs]; [done|]. destruct args as [|name rest]; [done|].
    rewrite (run_single env g name rest c w Hall Hc). cbn zeta.
    destruct (Client.Get_GitRepository c _ _ w) as [[e|repository] w']; apply leave_last.
Qed.

(** X4: when the GitRepository fetched by name cannot be marshalled, the
    command returns the marshaller's error as it is, prints nothing, and, even
    with credentials requested, never asks for the Secret. *)
Theorem repository_marshal_error (name : string) (rest : list string) c w w'
    (repository : GitRepository.t) (e : error) :
  all = false →
  getClient env g = inr c →
  Client.Get_GitRepository c ctx (requestedName g name) w = (inr repository, w') →
  Env.yaml_Marshal_GitRepository env (exportGit_export repository) = inl e →
  run env g (name :: rest) w =
    (Some e, State.mk w' [Call ctx (ReqGetGitRepository (requestedName g name)) None;
                          Cancel ctx]).
Proof.
  intros Hall Hc Hget Hmarshal.
  rewrite (run_single env g name rest c w Hall Hc). cbn zeta.
  by rewrite Hget, each_run, exportGit_run, Hmarshal.
Qed.

(** X5: when the Secret is fetched but cannot be marshalled, the command
    returns the marshaller's error as it is (not wrapped); the GitRepository
    document is already on standard output and stays the only one there. *)
Theorem secret_marshal_error (name : string) (rest : list string) c w w1 w2
    (repository : GitRepository.t) (ref : LocalObjectReference.t) (cred : Secret.t)
    (gitData : list Byte.byte) (e : error) :
  all = false →
  withCred = true →
  getClient env g = inr c →
  Client.Get_GitRepository c ctx (requestedName g name) w = (inr repository, w1) →
  Env.yaml_Marshal_GitRepository env (exportGit_export repository) = inr gitData →
  GitRepositorySpec.SecretRef (GitRepository.Spec repository) = Some ref →
  Client.Get_Secret c ctx (secretKey repository ref) w1 = (inr cred, w2) →
  Env.yaml_Marshal_Secret env
    (exportGitCredentials_exported (secretKey repository ref) cred) = inl e →
  (run env g (name :: rest) w).1 = Some e ∧
  State.trace (run env g (name :: rest) w).2 =
    [Call ctx (ReqGetGitRepository (requestedName g name)) None;
     Stdout "---"; Stdout (Env.resourceToString env gitData);
     Call ctx (ReqGetSecret (secretKey repository ref)) None;
     Cancel ctx] ∧
  stdout (State.trace (run env g (name :: rest) w).2) =
    ["---"; Env.resourceToString env gitData].
Proof.
  intros Hall Hwith Hc Hget Hgit Href Hsecret Hmarshal.
  rewrite (run_single env g name rest c w Hall Hc). cbn zeta.
  rewrite Hget, each_run, exportGit_run, Hgit, Hwith, exportGitCredentials_run, Href.
  cbn zeta. cbn [extend State.world State.trace]. by rewrite Hsecret, Hmarshal.
Qed.

(** X6: what is exported for a repository depends on its name, namespace,
    labels, annotations and spec only: two objects that agree on these (and
    differ in status, uid, resourceVersion, managed fields, ...) make the loop
    body do the same, calls and output alike. *)
Theorem export_reads_five_fields (s s' : GitRepository.t) :
  GitRepository.Name s = GitRepository.Name s' →
  GitRepository.Namespace s = GitRepository.Namespace s' →
  GitRepository.Labels s = GitRepository.Labels s' →
  GitRepository.Annotations s = GitRepository.Annotations s' →
  GitRepository.Spec s = GitRepository.Spec s' →
  ∀ cx c st,
    exportSourceGitCmdRun_each env g cx c s st =
    exportSourceGitCmdRun_each env g cx c s' st.
Proof.
  intros Hname Hns Hlabels Hannotations Hspec cx c st.
  assert (Hexport : exportGit_export s = exportGit_export s').
  { unfold exportGit_export. by rewrite Hname, Hns, Hlabels, Hannotations, Hspec. }
  rewrite !each_run, !exportGit_run, Hexport.
  destruct (Env.yaml_Marshal_GitRepository env _) as [e|data]; [done|].
  destruct withCred; [|done].
  rewrite !exportGitCredentials_run, Hspec.
  destruct (GitRepositorySpec.SecretRef _) as [ref|]; [|done].
  unfold secretKey. by rewrite Hns.
Qed.

End Paths.

(** ** Further behaviour of the command: what every trace looks like *)

(** Documents as they stand on standard output: each after a "---" line. *)
Fixpoint framed (docs : list string) : list string :=
  match docs with
  | [] => []
  | d :: rest => "---" :: d :: framed rest
  end.

(** An event that is not a failed API call. *)
Definition succeeded (ev : Event) : Prop :=
  match ev with
  | Call _ _ (Some _) => False
  | _ => True
  end.

Section Traces.
Context {World : Type}.
Variable env : Env.t World.
Variable g : Globals.t.

Implicit Types (st : State.t World) (w : World).
Implicit Types (evs tr : list Event) (r : error + unit) (cx : Context).

Local Abbreviation ctx := (commandContext g).
Local Abbreviation ns := (rootFlags.namespace (Globals.rootArgs g)).

Ltac in_cases H :=
  repeat first
    [ apply elem_of_nil in H as []
    | apply elem_of_cons in H as [H|H]
    | apply elem_of_app in H as [H|H] ].

Lemma framed_app (docs docs' : list string) :
  framed (docs ++ docs') = framed docs ++ framed docs'.
Proof. induction docs as [|d docs IH]; [done|]. cbn. by rewrite IH. Qed.

Lemma stdout_app evs evs' : stdout (evs ++ evs') = stdout evs ++ stdout evs'.
Proof. apply omap_app. Qed.

Lemma each_shape_stdout r evs :
  each_shape env g r evs → ∃ docs, stdout evs = framed docs.
Proof.
  destruct 1 as [e|data|data key e _|data key e _|data key secretData _].
  - by exists [].
  - by exists [Env.resourceToString env data].
  - by exists [Env.resourceToString env data].
  - by exists [Env.resourceToString env data].
  - by exists [Env.resourceToString env data; Env.resourceToString env secretData].
Qed.

Lemma loop_shape_stdout r evs :
  loop_shape env g r evs → ∃ docs, stdout evs = framed docs.
Proof.
  induction 1 as [|e evs Heach|evs r evs' Heach _ [docs' IH]].
  - by exists [].
  - by eapply each_shape_stdout.
  - destruct (each_shape_stdout _ _ Heach) as [docs Hdocs].
    exists (docs ++ docs'). by rewrite stdout_app, framed_app, Hdocs, IH.
Qed.

(** X7: whatever happens, standard output is a sequence of whole documents,
    each right after its own "---" line: an error never leaves a separator
    without a document or a document without its separator. *)
Theorem stdout_is_framed_documents (args : list string) w :
  ∃ docs, stdout (State.trace (run env g args w).2) = framed docs.
Proof.
  destruct (run_has_shape env g args w) as [|e|e| |r evs Hloop|key e|key r evs Heach];
    try (by exists []).
  - destruct (loop_shape_stdout _ _ Hloop) as [docs Hdocs]. exists docs.
    change (Call ctx (ReqList ns) None :: evs ++ [Cancel ctx])
      with ([Call ctx (ReqList ns) None] ++ evs ++ [Cancel ctx]).
    rewrite !stdout_app, Hdocs. cbn. by rewrite app_nil_r.
  - destruct (each_shape_stdout _ _ Heach) as [docs Hdocs]. exists docs.
    change (Call ctx (ReqGetGitRepository key) None :: evs ++ [Cancel ctx])
      with ([Call ctx (ReqGetGitRepository key) None] ++ evs ++ [Cancel ctx]).
    rewrite !stdout_app, Hdocs. cbn. by rewrite app_nil_r.
Qed.

Lemma document_succeeded data : Forall succeeded (document env data).
Proof. by repeat constructor. Qed.

Lemma each_ok_succeeded evs : each_shape env g (inr tt) evs → Forall succeeded evs.
Proof.
  inversion 1; subst;
    repeat first [apply Forall_app_2 | apply document_succeeded | apply Forall_nil_2
                 | apply Forall_cons_2; [done|] ].
Qed.

Lemma each_failed_last r evs cx req e :
  each_shape env g r evs → Call cx req (Some e) ∈ evs →
  ∃ pre, evs = pre ++ [Call cx req (Some e)] ∧ Forall succeeded pre.
Proof.
  destruct 1 as [e'|data|data key e' _|data key e' _|data key secretData _];
    intros Hin; unfold document in Hin; in_cases Hin; simplify_eq.
  exists (document env data). split; [done|apply document_succeeded].
Qed.

Lemma loop_failed_last r evs cx req e :
  loop_shape env g r evs → Call cx req (Some e) ∈ evs →
  ∃ pre, evs = pre ++ [Call cx req (Some e)] ∧ Forall succeeded pre.
Proof.
  induction 1 as [|e' evs Heach|evs r evs' Heach _ IH]; intros Hin.
  - by apply elem_of_nil in Hin.
  - by eapply each_failed_last.
  - pose proof (each_ok_succeeded _ Heach) as Hok.
    apply elem_of_app in Hin as [Hin|Hin].
    { apply list_elem_of_lookup_1 in Hin as [i Hi].
      by destruct (Forall_lookup_1 _ _ _ _ Hok Hi). }
    destruct (IH Hin) as (pre & -> & Hpre).
    exists (evs ++ pre). split; [by rewrite app_assoc|by apply Forall_app_2].
Qed.

(** X8: an API call that fails ends the invocation: the only event after it
    is the deferred cancel, so nothing more is printed and no further call is
    made, and no call before it had failed. *)
Theorem failed_call_ends_run (args : list string) w cx (req : Request) (e : error) :
  Call cx req (Some e) ∈ State.trace (run env g args w).2 →
  ∃ pre,
    State.trace (run env g args w).2 = pre ++ [Call cx req (Some e); Cancel ctx] ∧
    Forall succeeded pre.
Proof.
  destruct (run_has_shape env g args w) as [|e'|e'| |r evs Hloop|key e'|key r evs Heach];
    intros Hin.
  - in_cases Hin.
  - in_cases Hin; simplify_eq.
  - in_cases Hin; simplify_eq. by exists [].
  - in_cases Hin; simplify_eq.
  - apply elem_of_cons in Hin as [?|[Hin|Hin]%elem_of_app]; [done| |in_cases Hin; done].
    destruct (loop_failed_last _ _ _ _ _ Hloop Hin) as (pre & -> & Hpre).
    exists (Call ctx (ReqList ns) None :: pre).
    split; [by rewrite <- app_assoc|by constructor].
  - in_cases Hin; simplify_eq. by exists [].
  - apply elem_of_cons in Hin as [?|[Hin|Hin]%elem_of_app]; [done| |in_cases Hin; done].
    destruct (each_failed_last _ _ _ _ _ Heach Hin) as (pre & -> & Hpre).
    exists (Call ctx (ReqGetGitRepository key) None :: pre).
    split; [by rewrite <- app_assoc|by constructor].
Qed.

(** X9: when the List or the Get of the repository fails, the invocation is
    that one call and the deferred cancel: nothing is printed, nothing is
    logged and no Secret is asked for. *)
Theorem failed_repository_call_alone (args : list string) w cx (req : Request) (e : error) :
  Call cx req (Some e) ∈ State.trace (run env g args w).2 →
  isRepositoryCall (Call cx req (Some e)) = true →
  State.trace (run env g args w).2 = [Call cx req (Some e); Cancel ctx] ∧
  stdout (State.trace (run env g args w).2) = [].
Proof.
  destruct (run_has_shape env g args w) as [|e'|e'| |r evs Hloop|key e'|key r evs Heach];
    intros Hin Hrepo.
  - in_cases Hin.
  - in_cases Hin; simplify_eq.
  - in_cases Hin; by simplify_eq.
  - in_cases Hin; simplify_eq.
  - apply elem_of_cons in Hin as [?|[Hin|Hin]%elem_of_app]; [done| |in_cases Hin; done].
    by destruct (loop_failed_call _ _ _ _ _ _ _ Hloop Hin) as (key & -> & _).
  - in_cases Hin; by simplify_eq.
  - apply elem_of_cons in Hin as [?|[Hin|Hin]%elem_of_app]; [done| |in_cases Hin; done].
    by destruct (each_failed_call _ _ _ _ _ _ _ Heach Hin) as (key' & -> & _).
Qed.

End Traces.

(** ** Further behaviour of the command: the list *)

(** Whether a repository refers to a Secret. *)
Definition hasSecretRef (repository : GitRepository.t) : bool :=
  match GitRepositorySpec.SecretRef (GitRepository.Spec repository) with
  | Some _ => true
  | None => false
  end.

Section Cluster.
Context {World : Type}.
Variable env : Env.t World.
Variable g : Globals.t.

Implicit Types (st : State.t World) (c : Client.t World) (w : World).
Implicit Types (evs tr : list Event) (items : list GitRepository.t).

Local Abbreviation ctx := (commandContext g).
Local Abbreviation ns := (rootFlags.namespace (Globals.rootArgs g)).
Local Abbreviation all := (exportFlags.all (Globals.exportArgs g)).
Local Abbreviation withCred := (Globals.exportSourceWithCred g).

Lemma loop_all_marshalled c items (datas : list (list Byte.byte)) st :
  withCred = false →
  Forall2 (λ repository data,
     Env.yaml_Marshal_GitRepository env (exportGit_export repository) = inr data)
    items datas →
  forRange items (exportSourceGitCmdRun_each env g ctx c) st =
    (inr tt, extend st (concat (document env <$> datas))).
Proof.
  intros Hwith Hall2. revert st.
  induction Hall2 as [|repository data items datas Hdata _ IH]; intros st.
  - unfold extend. cbn. rewrite app_nil_r. by destruct st.
  - rewrite forRange_cons, each_run, exportGit_run, Hdata, Hwith, IH.
    unfold extend. cbn [State.world State.trace fmap list_fmap concat].
    by rewrite <- app_assoc.
Qed.

(** X11: with --all and without credentials, when every listed repository
    marshals, the invocation is the List, then one document per repository in
    the order of the list, then the deferred cancel, and the command returns
    nil: every repository is exported, once, and none is reordered. *)
Theorem all_mode_exports_in_order (args : list string) c w w' items
    (datas : list (list Byte.byte)) :
  all = true →
  withCred = false →
  getClient env g = inr c →
  Client.List c ctx ns w = (inr items, w') →
  items ≠ [] →
  Forall2 (λ repository data,
     Env.yaml_Marshal_GitRepository env (exportGit_export repository) = inr data)
    items datas →
  run env g args w =
    (None, State.mk w' (Call ctx (ReqList ns) None ::
                        concat (document env <$> datas) ++ [Cancel ctx])) ∧
  stdout (State.trace (run env g args w).2) =
    framed (Env.resourceToString env <$> datas).
Proof.
  intros Hall Hwith Hc Hlist Hne Hdatas.
  assert (Hrun : run env g args w =
    (None, State.mk w' (Call ctx (ReqList ns) None ::
                        concat (document env <$> datas) ++ [Cancel ctx]))).
  { rewrite (run_all env g args c w Hall Hc). cbn zeta. rewrite Hlist.
    destruct items as [|repository items]; [done|].
    rewrite (loop_all_marshalled c _ datas) by done.
    unfold leave, extend. cbn [fst snd State.world State.trace errorOf app].
    done. }
  split; [done|]. rewrite Hrun. cbn [snd State.trace].
  change (Call ctx (ReqList ns) None :: concat (document env <$> datas) ++ [Cancel ctx])
    with ([Call ctx (ReqList ns) None] ++ concat (document env <$> datas) ++ [Cancel ctx]).
  rewrite !stdout_app. cbn [stdout omap list_omap app]. rewrite app_nil_r.
  clear. induction datas as [|data datas IH]; [done|].
  cbn [fmap list_fmap concat]. rewrite stdout_app, IH. reflexivity.
Qed.

Lemma each_secret_gets c (repository : GitRepository.t) st :
  (length (calls (State.trace (exportSourceGitCmdRun_each env g ctx c repository st).2))
   ≤ length (calls (State.trace st)) + (if hasSecretRef repository then 1 else 0))%nat.
Proof.
  rewrite each_run, exportGit_run. unfold hasSecretRef.
  destruct (Env.yaml_Marshal_GitRepository env _) as [e|data]; cbn [snd]; [lia|].
  destruct withCred.
  - rewrite exportGitCredentials_run.
    destruct (GitRepositorySpec.SecretRef _) as [ref|].
    + cbn zeta. cbn [extend State.world State.trace].
      destruct (Client.Get_Secret c _ _ _) as [[e|cred] w2];
        [|destruct (Env.yaml_Marshal_Secret env _) as [e|secretData]];
        cbn [snd State.trace]; rewrite !calls_app, !length_app; cbn; lia.
    + cbn [snd extend State.trace]. rewrite calls_app, length_app. cbn. lia.
  - cbn [snd extend State.trace]. rewrite calls_app, length_app.
    destruct (GitRepositorySpec.SecretRef _); cbn; lia.
Qed.

Lemma loop_secret_gets c items st :
  (length (calls (State.trace
             (forRange items (exportSourceGitCmdRun_each env g ctx c) st).2))
   ≤ length (calls (State.trace st)) + length (List.filter hasSecretRef items))%nat.
Proof.
  revert st. induction items as [|repository items IH]; intros st.
  - cbn. lia.
  - rewrite forRange_cons. pose proof (each_secret_gets c repository st) as Heach.
    destruct (exportSourceGitCmdRun_each env g ctx c repository st) as [[e|[]] st'];
      cbn [snd] in *.
    + cbn [List.filter]. destruct (hasSecretRef repository); cbn [length]; lia.
    + specialize (IH st'). cbn [List.filter].
      destruct (hasSecretRef repository); cbn [length]; lia.
Qed.

(** X12: with --all, the invocation makes at most one call beyond the List
    for each listed repository that has a SecretRef; a repository without one
    costs no call. *)
Theorem all_mode_calls_bounded (args : list string) c w w' items :
  all = true →
  getClient env g = inr c →
  Client.List c ctx ns w = (inr items, w') →
  (length (calls (State.trace (run env g args w).2))
   ≤ 1 + length (List.filter hasSecretRef items))%nat.
Proof.
  intros Hall Hc Hlist. rewrite (run_all env g args c w Hall Hc). cbn zeta. rewrite Hlist.
  destruct items as [|repository items]; [cbn; lia|].
  pose proof (loop_secret_gets c (repository :: items)
                (State.mk w' [Call ctx (ReqList ns) None])) as Hloop.
  unfold leave. cbn [snd extend State.trace]. rewrite calls_app, length_app.
  cbn [State.trace calls List.filter isCall length] in *. lia.
Qed.

End Cluster.

(** ** More runs on the small cluster *)

Module Faulty.
(** No kubeconfig: the client cannot be built. *)
Definition noClient : error := errorString "invalid configuration: no configuration has been provided".

Definition env : Env.t Fake.Cluster :=
  {| Env.yaml_Marshal_GitRepository := Env.yaml_Marshal_GitRepository Fake.env;
     Env.yaml_Marshal_Secret := Env.yaml_Marshal_Secret Fake.env;
     Env.resourceToString := Env.resourceToString Fake.env;
     Env.utils_KubeClient := λ _ _, inl noClient |}.

(** A cluster with a repository and a Secret that the marshaller refuses
    (they have no name). *)
Definition cluster : Fake.Cluster :=
  {| Fake.repositories := [Fake.repository "" (Some "app-key");
                           Fake.repository "web" (Some "")];
     Fake.secrets := [Fake.secret "app-key"; Fake.secret ""] |}.

(** The repository "app" as the controller may have left it later: same
    metadata and spec, another status and no type information. *)
Definition reconciled : GitRepository.t :=
  {| GitRepository.TypeMeta := TypeMeta.mk "" "";
     GitRepository.ObjectMeta :=
       GitRepository.ObjectMeta (Fake.repository "app" (Some "app-key"));
     GitRepository.Spec := GitRepository.Spec (Fake.repository "app" (Some "app-key"));
     GitRepository.Status := zero |}.
End Faulty.

Lemma client_error_returned_witness :
  let g := Fake.globals true true in
  getClient Faulty.env g = inl Faulty.noClient ∧
  (run Faulty.env g [] Fake.cluster).1 = Some Faulty.noClient ∧
  State.trace (run Faulty.env g [] Fake.cluster).2 = [Cancel Fake.ctx].
Proof.
  intros g. split; [reflexivity|].
  destruct (client_error_returned Faulty.env g [] Faulty.noClient Fake.cluster
              (or_introl eq_refl) eq_refl) as (Hret & Htrace & _).
  by split.
Defined.

Lemma context_always_cancelled_witness :
  ∃ body,
    State.trace (run Fake.env (Fake.globals false true) ["infra"] Fake.cluster).2
      = body ++ [Cancel Fake.ctx].
Proof.
  apply (context_always_cancelled Fake.env (Fake.globals false true) ["infra"] Fake.cluster).
  right. discriminate.
Defined.

Lemma repository_marshal_error_witness :
  let g := Fake.globals false true in
  let key := NamespacedName.mk "flux-system" "" in
  Client.Get_GitRepository Fake.client Fake.ctx key Faulty.cluster
    = (inr (Fake.repository "" (Some "app-key")), Faulty.cluster) ∧
  run Fake.env g [""] Faulty.cluster =
    (Some (errorString "yaml: object without a name"),
     State.mk Faulty.cluster [Call Fake.ctx (ReqGetGitRepository key) None; Cancel Fake.ctx]).
Proof.
  intros g key. split; [reflexivity|].
  exact (repository_marshal_error Fake.env g "" [] Fake.client Faulty.cluster Faulty.cluster
           (Fake.repository "" (Some "app-key")) (errorString "yaml: object without a name")
           eq_refl eq_refl eq_refl eq_refl).
Defined.

Lemma secret_marshal_error_witness :
  let g := Fake.globals false true in
  (Client.Get_Secret Fake.client Fake.ctx (NamespacedName.mk "flux-system" "") Faulty.cluster
     = (inr (Fake.secret ""), Faulty.cluster)) ∧
  (run Fake.env g ["web"] Faulty.cluster).1 = Some (errorString "yaml: object without a name") ∧
  stdout (State.trace (run Fake.env g ["web"] Faulty.cluster).2)
    = ["---"; "GitRepository flux-system/web"].
Proof.
  intros g. split; [reflexivity|].
  destruct (secret_marshal_error Fake.env g "web" [] Fake.client
              Faulty.cluster Faulty.cluster Faulty.cluster
              (Fake.repository "web" (Some "")) (LocalObjectReference.mk "")
              (Fake.secret "") (String.list_byte_of_string "GitRepository flux-system/web")
              (errorString "yaml: object without a name")
              eq_refl eq_refl eq_refl eq_refl eq_refl eq_refl eq_refl eq_refl)
    as (Hret & _ & Hout).
  by split.
Defined.

Lemma export_reads_five_fields_witness :
  let g := Fake.globals true true in
  let s := Fake.repository "app" (Some "app-key") in
  GitRepository.Status s ≠ GitRepository.Status Faulty.reconciled ∧
  exportSourceGitCmdRun_each Fake.env g Fake.ctx Fake.client s (State.mk Fake.cluster []) =
  exportSourceGitCmdRun_each Fake.env g Fake.ctx Fake.client Faulty.reconciled
    (State.mk Fake.cluster []).
Proof.
  intros g s. split; [discriminate|].
  exact (export_reads_five_fields Fake.env g s Faulty.reconciled
           eq_refl eq_refl eq_refl eq_refl eq_refl
           Fake.ctx Fake.client (State.mk Fake.cluster [])).
Defined.

Lemma failed_call_ends_run_witness :
  let g := Fake.globals true true in
  let failed :=
    Call Fake.ctx (ReqGetSecret (NamespacedName.mk "flux-system" "missing-key"))
      (Some (StatusError "NotFound" "missing-key not found")) in
  failed ∈ State.trace (run Fake.env g [] Fake.cluster).2 ∧
  ∃ pre,
    State.trace (run Fake.env g [] Fake.cluster).2 = pre ++ [failed; Cancel Fake.ctx] ∧
    Forall succeeded pre.
Proof.
  intros g failed.
  assert (Hin : failed ∈ State.trace (run Fake.env g [] Fake.cluster).2).
  { apply (list_elem_of_lookup_2 _ 10). reflexivity. }
  split; [exact Hin|].
  exact (failed_call_ends_run Fake.env g [] Fake.cluster _ _ _ Hin).
Defined.

Lemma failed_repository_call_alone_witness :
  let g := Fake.globals false true in
  let failed :=
    Call Fake.ctx (ReqGetGitRepository (NamespacedName.mk "flux-system" "nowhere"))
      (Some (StatusError "NotFound" "nowhere not found")) in
  State.trace (run Fake.env g ["nowhere"] Fake.cluster).2 = [failed; Cancel Fake.ctx] ∧
  stdout (State.trace (run Fake.env g ["nowhere"] Fake.cluster).2) = [].
Proof.
  intros g failed.
  assert (Hin : failed ∈ State.trace (run Fake.env g ["nowhere"] Fake.cluster).2).
  { apply (list_elem_of_lookup_2 _ 0). reflexivity. }
  exact (failed_repository_call_alone Fake.env g ["nowhere"] Fake.cluster _ _ _ Hin eq_refl).
Defined.

Lemma all_mode_exports_in_order_witness :
  let g := Fake.globals true false in
  let datas := String.list_byte_of_string <$>
    ["GitRepository flux-system/app"; "GitRepository flux-system/lib";
     "GitRepository flux-system/infra"] in
  Client.List Fake.client Fake.ctx "flux-system" Fake.cluster
    = (inr (Fake.repositories Fake.cluster), Fake.cluster) ∧
  (run Fake.env g [] Fake.cluster).1 = None ∧
  stdout (State.trace (run Fake.env g [] Fake.cluster).2) =
    ["---"; "GitRepository flux-system/app"; "---"; "GitRepository flux-system/lib";
     "---"; "GitRepository flux-system/infra"].
Proof.
  intros g datas. split; [reflexivity|].
  destruct (all_mode_exports_in_order Fake.env g [] Fake.client Fake.cluster Fake.cluster
              (Fake.repositories Fake.cluster) datas
              eq_refl eq_refl eq_refl eq_refl ltac:(discriminate)
              ltac:(repeat constructor)) as [Hrun Hout].
  split; [by rewrite Hrun|exact Hout].
Defined.

Lemma all_mode_calls_bounded_witness :
  let g := Fake.globals true true in
  length (List.filter hasSecretRef (Fake.repositories Fake.cluster)) = 2%nat ∧
  (length (calls (State.trace (run Fake.env g [] Fake.cluster).2)) ≤ 1 + 2)%nat.
Proof.
  intros g. split; [reflexivity|].
  exact (all_mode_calls_bounded Fake.env g [] Fake.client Fake.cluster Fake.cluster
           (Fake.repositories Fake.cluster) eq_refl eq_refl eq_refl).
Defined.
